(** * mypipy: pipe-flow analysis (analysis_app)

    A shallow embedding of [analysis_app/data_tables.py] and
    [analysis_app/fluid_mechanics.py], of the validation of
    [analysis_app/forms.py] and of the computations of
    [analysis_app/views.py].

    - [DataTables] embeds the lookup tables and their accessor functions.
      Python [str] values are lists of Unicode code points; the numbers of
      the tables are rationals, so every lookup evaluates.
    - [FluidMechanics] embeds the numerical engine.  Python floats are read
      as real numbers (no rounding, no overflow); raised exceptions and the
      [warnings.warn] channel are made explicit by a small error/writer
      monad; SciPy's [root_scalar] is a parameter of the development.
    - [Forms] embeds [FluidInputForm.clean]; [Views] embeds the steps of
      [calculate_fluid_flow] that compute: the input pair [(V, Q)], the
      forward computation and the chart sampling.
    - [FloatRange] adds the range of binary64 to the functions whose
      exceptions depend on it. *)

From Stdlib Require Import List String Ascii Bool.
From Stdlib Require Import NArith ZArith QArith.
From Stdlib Require Import Reals Lra Lia.
From Stdlib Require Import Sorting.Sorted.
Import ListNotations.

(** ** Python strings *)

Module PyStr.

(** A Python [str]: a sequence of code points. *)
Definition str := list N.

(** Reads a literal written in this file (UTF-8 bytes, one- and two-byte
    sequences: Basic Latin and Latin-1 Supplement) as code points. *)
Fixpoint utf8 (s : string) : str :=
  match s with
  | EmptyString => []
  | String a rest =>
      let b := N_of_ascii a in
      if (b <? 192)%N then b :: utf8 rest
      else
        match rest with
        | EmptyString => [b]
        | String a2 rest2 =>
            ((b mod 32) * 64 + (N_of_ascii a2 mod 64))%N :: utf8 rest2
        end
  end.

(** [A]..[Z] *)
Definition is_ascii_upper (c : N) : bool := ((65 <=? c) && (c <=? 90))%N.

(** The capital letters of the Latin-1 Supplement: U+00C0..U+00DE but the
    multiplication sign U+00D7. *)
Definition is_latin1_upper (c : N) : bool :=
  ((192 <=? c) && (c <=? 222) && negb (c =? 215))%N.

(** [str.lower] on one code point.  The case mapping is written out for
    Basic Latin and the Latin-1 Supplement, the blocks in which the tables
    are written; a code point beyond them is kept as it is. *)
Definition lower_char (c : N) : N :=
  if is_ascii_upper c || is_latin1_upper c then (c + 32)%N else c.

Definition lower (s : str) : str := map lower_char s.

(** [str.isspace] on one code point: the characters [str.strip] removes
    when called with no argument. *)
Definition is_space (c : N) : bool :=
  (((9 <=? c) && (c <=? 13)) || ((28 <=? c) && (c <=? 32))
   || (c =? 133) || (c =? 160) || (c =? 5760)
   || ((8192 <=? c) && (c <=? 8202))
   || (c =? 8232) || (c =? 8233) || (c =? 8239) || (c =? 8287)
   || (c =? 12288))%N.

Fixpoint lstrip (s : str) : str :=
  match s with
  | [] => []
  | c :: rest => if is_space c then lstrip rest else s
  end.

Definition rstrip (s : str) : str := rev (lstrip (rev s)).

Definition strip (s : str) : str := rstrip (lstrip s).

(** A string of white space only. *)
Definition all_space (w : str) : Prop := Forall (fun c => is_space c = true) w.

(** Whether the first character is one of [A]..[Z]. *)
Definition starts_upper (s : str) : bool :=
  match s with
  | c :: _ => is_ascii_upper c
  | [] => false
  end.

Fixpoint eqb (s t : str) : bool :=
  match s, t with
  | [], [] => true
  | c :: s', d :: t' => (c =? d)%N && eqb s' t'
  | _, _ => false
  end.

End PyStr.

(** ** analysis_app/data_tables.py *)

Module DataTables.
Import PyStr.
Local Open Scope Q_scope.

(** A [dict] literal, in the order it is written; [dict_get] is
    [dict.get(key)], returning the entry written last for the key. *)
Section Dict.
Context {K V : Type} (key_eqb : K -> K -> bool).

Fixpoint dict_get (d : list (K * V)) (k : K) : option V :=
  match d with
  | [] => None
  | (k', v) :: rest =>
      match dict_get rest k with
      | Some v' => Some v'
      | None => if key_eqb k k' then Some v else None
      end
  end.

(** [dict.get(key, default)] *)
Definition dict_get_default (d : list (K * V)) (k : K) (dflt : V) : V :=
  match dict_get d k with Some v => v | None => dflt end.
End Dict.

Definition PIPE_DIAMETERS_M : list ((Q * Z) * Q) :=
  [ ((0.125, 40%Z), 0.0068); ((0.25, 40%Z), 0.0092);
    ((0.375, 40%Z), 0.0125); ((0.5, 40%Z), 0.0158);
    ((0.75, 40%Z), 0.0209);  ((1, 40%Z), 0.0266);
    ((1.25, 40%Z), 0.0351);  ((1.5, 40%Z), 0.0409);
    ((2, 40%Z), 0.0525);     ((2.5, 40%Z), 0.0627);
    ((3, 40%Z), 0.0779);     ((3.5, 40%Z), 0.0901);
    ((4, 40%Z), 0.1023);     ((5, 40%Z), 0.128);
    ((6, 40%Z), 0.154);      ((8, 40%Z), 0.203);
    ((10, 40%Z), 0.255);     ((12, 40%Z), 0.303);
    ((14, 40%Z), 0.333);     ((16, 40%Z), 0.381);
    ((18, 40%Z), 0.429);     ((20, 40%Z), 0.478);
    ((24, 40%Z), 0.575) ].

Definition MINOR_LOSS_COEFFICIENTS : list (str * Q) :=
  [ (utf8 "Rejilla de Entrada", 0.80);
    (utf8 "Válvula de Pie", 3.00);
    (utf8 "Entrada Cuadrada", 0.50);
    (utf8 "Entrada Abocinada", 0.10);
    (utf8 "Entrada de Borda o Reentrada", 1.00);
    (utf8 "Ampliación Gradual", 0.30);
    (utf8 "Ampliación Brusca", 0.20);
    (utf8 "Reducción Gradual", 0.25);
    (utf8 "Reducción Brusca", 0.35);
    (utf8 "Codo Corto 90°", 0.90);
    (utf8 "Codo Corto 45°", 0.40);
    (utf8 "Codo Largo 90°", 0.40);
    (utf8 "Codo Largo 45°", 0.20);
    (utf8 "Codo Largo 22°30'", 0.10);
    (utf8 "Tee Flujo Recto", 0.10);
    (utf8 "Tee Flujo en Ángulo", 1.50);
    (utf8 "Tee Salida Bilateral", 1.80);
    (utf8 "Válvula de Compuerta Abierta", 5.00);
    (utf8 "Válvula de Ángulo Abierta", 5.00);
    (utf8 "Válvula de Globo Abierta", 10.0);
    (utf8 "Válvula Alfalfera", 2.00);
    (utf8 "Válvula de Retención", 2.50);
    (utf8 "Boquilla", 2.75);
    (utf8 "Controlador de Gasto", 2.50);
    (utf8 "Medidor Venturi", 2.50);
    (utf8 "Confluencia", 0.40);
    (utf8 "Bifurcación", 0.10);
    (utf8 "Pequeña Derivación", 0.03);
    (utf8 "Válvula de Mariposa Abierta", 0.24) ].

Definition CONVERSION_M_TO_FT : Q := 3.28084.

(** Equality of two [(nominal, schedule)] tuples, as [dict] compares its
    keys: numbers by value. *)
Definition pipe_key_eqb (k k' : Q * Z) : bool :=
  Qeq_bool (fst k) (fst k') && (snd k =? snd k')%Z.

Definition is_SI (system : string) : bool := String.eqb system "SI".

Definition get_pipe_diameter (nominal : Q) (schedule : Z) (system : string)
  : Q :=
  let key := (nominal, schedule) in
  let diameter_m :=
    match dict_get pipe_key_eqb PIPE_DIAMETERS_M key with
    | Some d => d
    | None =>
        if is_SI system then nominal else nominal / CONVERSION_M_TO_FT
    end in
  if is_SI system then diameter_m else diameter_m * CONVERSION_M_TO_FT.

Definition get_minor_loss_k (componente : str) : Q :=
  dict_get_default PyStr.eqb MINOR_LOSS_COEFFICIENTS
    (strip (lower componente)) 0.0.

Definition ROUGHNESS : list (str * Q) :=
  [ (utf8 "plástico (pe, pvc)", 1.5e-6);
    (utf8 "poliester reforzado con fibra de vidrio", 1.0e-5);
    (utf8 "tubos estirados de acero", 2.4e-6);
    (utf8 "tubos de latón o cobre", 1.5e-6);
    (utf8 "fundición revestida de cemento", 2.4e-6);
    (utf8 "fundición con revestimiento bituminoso", 2.4e-6);
    (utf8 "fundición centrifugada", 3.0e-6);
    (utf8 "acero comercial y soldado", 6.0e-5);
    (utf8 "fundición asfaltada", 1.2e-4);
    (utf8 "fundición", 3.6e-4);
    (utf8 "hierro forjado", 6.0e-5);
    (utf8 "hierro galvanizado", 1.5e-4);
    (utf8 "madera", 5.4e-4);
    (utf8 "hormigón", 1.65e-3) ].

(** [get_roughness_by_material]; the default handed to [dict.get] is the
    subscript [ROUGHNESS["acero comercial y soldado"]], evaluated first:
    [None] stands for the [KeyError] of that subscript. *)
Definition get_roughness_by_material (material : str) (system : string)
  : option Q :=
  let material_lower := strip (lower material) in
  match dict_get PyStr.eqb ROUGHNESS (utf8 "acero comercial y soldado") with
  | None => None
  | Some fallback =>
      let epsilon_m :=
        dict_get_default PyStr.eqb ROUGHNESS material_lower fallback in
      if is_SI system then Some epsilon_m
      else Some (epsilon_m * CONVERSION_M_TO_FT)
  end.

End DataTables.

(** ** Exceptions and warnings *)

Module Py.

Inductive exn : Type :=
| ValueError (msg : string)
| ZeroDivisionError
| OverflowError
| OtherError (msg : string).

Inductive result (A : Type) : Type :=
| Ok (a : A)
| Raise (e : exn).
Arguments Ok {A} a.
Arguments Raise {A} e.

(** A computation: what it returns or raises, and the warnings it emitted
    on the way, oldest first. *)
Definition M (A : Type) : Type := (result A * list string)%type.

Definition ret {A} (a : A) : M A := (Ok a, []).

Definition raise {A} (e : exn) : M A := (Raise e, []).

Definition warn (msg : string) : M unit := (Ok tt, [msg]).

Definition bind {A B} (m : M A) (k : A -> M B) : M B :=
  match m with
  | (Ok a, w) => let '(r, w') := k a in (r, w ++ w')
  | (Raise e, w) => (Raise e, w)
  end.

(** [try: body  except Exception: handler] *)
Definition try_except {A} (body : M A) (handler : exn -> M A) : M A :=
  match body with
  | (Raise e, w) => let '(r, w') := handler e in (r, w ++ w')
  | (Ok a, w) => (Ok a, w)
  end.

Definition value {A} (m : M A) : result A := fst m.
Definition warnings {A} (m : M A) : list string := snd m.

Definition raises {A} (m : M A) : Prop := exists e, value m = Raise e.

Declare Scope py_scope.
Delimit Scope py_scope with py.
Notation "x <- m ;; k" := (bind m (fun x => k))
  (at level 61, m at next level, right associativity) : py_scope.
Notation "m ;;; k" := (bind m (fun _ => k))
  (at level 61, right associativity) : py_scope.

End Py.

(** ** analysis_app/fluid_mechanics.py *)

Module FluidMechanics.
Import Py.
Local Open Scope R_scope.
Local Open Scope py_scope.

(** *** NumPy and SciPy *)

(** [np.sign] *)
Definition sign (x : R) : R :=
  if Rlt_dec x 0 then -1 else if Rlt_dec 0 x then 1 else 0.

(** [np.log10], on its domain [x > 0]. *)
Definition log10 (x : R) : R := ln x / ln 10.

(** The spacing of [np.linspace(start, stop, num)]: the length of the
    interval over [num - 1]. *)
Definition linspace_step (start stop : R) (num : nat) : R :=
  let div := (num - 1)%nat in
  let delta := stop - start in
  match div with
  | O => delta
  | S _ => delta / INR div
  end.

(** [np.linspace(start, stop, num)]: [num] evenly spaced samples, the two
    ends included; a single sample is [start]. *)
Definition linspace (start stop : R) (num : nat) : list R :=
  let step := linspace_step start stop num in
  map (fun i => start + INR i * step) (seq 0 num).

(** A float division of Python: a zero divisor raises. *)
Definition pydiv (a b : R) : M R :=
  if Req_dec_T b 0 then raise ZeroDivisionError else ret (a / b).

(** The call [root_scalar(f, bracket=[a, b], method='brentq')],
    [root_scalar(f, x0=.., x1=.., method='secant')] or
    [root_scalar(f, x0=.., method='newton')]. *)
Inductive method : Type :=
| brentq (a b : R)
| secant (x0 x1 : R)
| newton (x0 : R).

(** The fields of SciPy's [RootResults] the program reads. *)
Record RootResults : Type := { converged : bool; root : R }.

(** [sol.converged and sol.root > 0]: the root the caller returns, if any. *)
Definition accepted (sol : RootResults) : option R :=
  if converged sol then
    if Rlt_dec 0 (root sol) then Some (root sol) else None
  else None.

Section Engine.

(** SciPy's [root_scalar(f, ..., maxiter=n)], left unspecified: it may
    return any [RootResults], raise, or pass on what [f] raises and warns. *)
Variable root_scalar : (R -> M R) -> method -> nat -> M RootResults.

Definition G_SI : R := 9.81.
Definition G_INGLES : R := 32.2.

(** The tuple [get_constants] returns. *)
Record constants : Type := {
  const_g : R;
  g_unit : string;
  L_unit : string;
  Q_unit : string;
  P_unit : string;
  rho_unit : string;
  nu_unit : string;
  power_unit : string
}.

Definition get_constants (system : string) : constants :=
  if String.eqb system "SI" then
    {| const_g := G_SI; g_unit := "m/s²"; L_unit := "m"; Q_unit := "m³/s";
       P_unit := "Pa"; rho_unit := "kg/m³"; nu_unit := "m²/s";
       power_unit := "W" |}
  else
    {| const_g := G_INGLES; g_unit := "ft/s²"; L_unit := "ft";
       Q_unit := "ft³/s"; P_unit := "lbf/ft²"; rho_unit := "slug/ft³";
       nu_unit := "ft²/s"; power_unit := "hp" |}.

Definition kinematic_viscosity (mu rho : R) : M R :=
  if Rle_dec rho 0 then
    raise (ValueError "La densidad (rho) debe ser positiva.")
  else ret (mu / rho).

Definition reynolds_number (V D nu : R) : R :=
  if Rle_dec V 0 then 0
  else if Rle_dec D 0 then 0
  else if Rle_dec nu 0 then 0
  else (V * D) / nu.

(** The residual of the Colebrook-White equation at [f]. *)
Definition colebrook_equation (Re epsilon_D f : R) : R :=
  if Rle_dec f 0 then 1e6
  else 1 / sqrt f + 2 * log10 (epsilon_D / 3.7 + 2.51 / (Re * sqrt f)).

(** The explicit first estimate of [f]. *)
Definition swamee_jain (Re epsilon_D : R) : R :=
  0.25 / (log10 (epsilon_D / 3.7 + 5.74 / Rpower Re 0.9)) ^ 2.

(** The pair [(x0, x1)] handed to the secant search. *)
Definition secant_seeds (f_guess : R) : R * R :=
  (Rmax 1e-6 (f_guess * 0.8), Rmin 0.5 (f_guess * 1.2)).

(** One [try: ... except Exception: pass] stage of a fallback chain:
    [Some r] when the stage makes the function return [r], [None] when
    control falls through to the next stage. *)
Definition stage {A} (body : M (option A)) : M (option A) :=
  try_except body (fun _ => ret None).

Definition colebrook_white_friction_factor (Re epsilon_D : R) : M R :=
  if Rle_dec Re 0 then
    warn "Re <= 0 en colebrook_white_friction_factor; devolviendo 0.0" ;;;
    ret 0
  else if Rlt_dec Re 2000 then ret (64 / Re)
  else
    let equation := colebrook_equation Re epsilon_D in
    f_guess <- try_except (ret (swamee_jain Re epsilon_D))
                          (fun _ => ret 0.02) ;;
    let bracket_low := 1e-6 in
    let bracket_high := 0.1 in
    r1 <- stage
            (let fl := equation bracket_low in
             let fh := equation bracket_high in
             if Req_dec_T (sign fl) (sign fh) then ret None
             else
               sol <- root_scalar (fun f => ret (equation f))
                        (brentq bracket_low bracket_high) 200 ;;
               ret (accepted sol)) ;;
    match r1 with
    | Some f => ret f
    | None =>
        r2 <- stage
                (let '(x0, x1) := secant_seeds f_guess in
                 sol <- root_scalar (fun f => ret (equation f))
                          (secant x0 x1) 200 ;;
                 ret (accepted sol)) ;;
        match r2 with
        | Some f => ret f
        | None =>
            r3 <- stage
                    (sol <- root_scalar (fun f => ret (equation f))
                              (newton f_guess) 200 ;;
                     ret (accepted sol)) ;;
            match r3 with
            | Some f => ret f
            | None =>
                warn "Colebrook no convergió; usando aproximación explícita f_guess." ;;;
                ret f_guess
            end
        end
    end.

Definition total_head_loss (f L D V sum_K g : R) : R :=
  if Rle_dec D 0 then 0
  else if Rle_dec g 0 then 0
  else
    let velocity_head := (V ^ 2) / (2 * g) in
    let Hf := f * (L / D) * velocity_head in
    let Hm := sum_K * velocity_head in
    Hf + Hm.

Definition pressure_drop (rho g hL : R) : R := rho * g * hL.

Definition is_SI (system : string) : bool := String.eqb system "SI".

Definition pumping_power (Q delta_P : R) (system : string) (efficiency : R)
  : M R :=
  if Rle_dec efficiency 0 then
    raise (ValueError "La eficiencia debe ser positiva y mayor que 0.")
  else
    let power_brute := Q * delta_P in
    if is_SI system then ret (power_brute / efficiency)
    else ret ((power_brute / 550) / efficiency).

Definition energy_equation_for_V (V P1 P2 z1 z2 L D rho nu sum_K g : R)
  (material_epsilon : option R) : M R :=
  if Rle_dec V 0 then ret 1e10
  else
    let Re := reynolds_number V D nu in
    if Req_dec_T D 0 then ret 1e10
    else
      let epsilon_D :=
        match material_epsilon with Some e => e / D | None => 0 end in
      f <- colebrook_white_friction_factor Re epsilon_D ;;
      let hL := total_head_loss f L D V sum_K g in
      head <- pydiv (P1 - P2) (rho * g) ;;
      let delta_z_p := head + (z1 - z2) in
      ret (hL - delta_z_p).

(** What [solve_velocity] returns: [(V, Q)] or [(None, None)]. *)
Definition solution : Type := (option R * option R)%type.

Definition solve_velocity (P1 P2 z1 z2 L D rho nu sum_K g : R)
  (material_epsilon : option R) (V_min V_max : R) : M solution :=
  let Area := PI * (D ^ 2) / 4 in
  let F := fun V =>
    energy_equation_for_V V P1 P2 z1 z2 L D rho nu sum_K g material_epsilon in
  r1 <- stage
          (f_low <- F V_min ;;
           f_high <- F V_max ;;
           if Req_dec_T (sign f_low) (sign f_high) then ret None
           else
             sol <- root_scalar F (brentq V_min V_max) 200 ;;
             ret (accepted sol)) ;;
  match r1 with
  | Some V => ret (Some V, Some (V * Area))
  | None =>
      r2 <- stage
              (V_est <- try_except
                          (head <- pydiv (P1 - P2) (rho * g) ;;
                           let delta_z_p := head + (z1 - z2) in
                           if Rlt_dec 0 delta_z_p
                           then ret (sqrt (2 * g * delta_z_p))
                           else ret ((V_min + V_max) / 2))
                          (fun _ => ret ((V_min + V_max) / 2)) ;;
               let x0 := Rmax V_min (V_est * 0.5) in
               let x1 := Rmin V_max (V_est * 1.5) in
               sol <- root_scalar F (secant x0 x1) 200 ;;
               ret (accepted sol)) ;;
      match r2 with
      | Some V => ret (Some V, Some (V * Area))
      | None =>
          r3 <- stage
                  (sol <- root_scalar F (newton ((V_min + V_max) / 2)) 200 ;;
                   ret (accepted sol)) ;;
          match r3 with
          | Some V => ret (Some V, Some (V * Area))
          | None =>
              warn "No se pudo resolver la velocidad con las estrategias disponibles." ;;;
              ret (None, None)
          end
      end
  end.

(** The [for V in V_values] loop of [generate_hl_vs_v_data]; [data] is the
    list the loop appends to. *)
Fixpoint hl_samples (V_values : list R) (L D nu sum_K g material_epsilon : R)
  (data : list (R * R)) : M (list (R * R)) :=
  match V_values with
  | [] => ret data
  | V :: rest =>
      if Rle_dec V 0 then
        hl_samples rest L D nu sum_K g material_epsilon data
      else
        let Re := reynolds_number V D nu in
        let epsilon_D :=
          if Req_dec_T D 0 then 0 else material_epsilon / D in
        f <- colebrook_white_friction_factor Re epsilon_D ;;
        let hL := total_head_loss f L D V sum_K g in
        hl_samples rest L D nu sum_K g material_epsilon (data ++ [(V, hL)])
  end.

Definition generate_hl_vs_v_data (V_min V_max : R) (steps : Z)
  (L D nu sum_K g material_epsilon : R) : M (list (R * R)) :=
  if (steps <=? 0)%Z then
    raise (ValueError "steps debe ser un entero positivo.")
  else
    let V_values := linspace V_min V_max (Z.to_nat steps) in
    hl_samples V_values L D nu sum_K g material_epsilon [].

(** The head loss [generate_hl_vs_v_data] pairs with a velocity [V]: the
    Reynolds number, then the friction factor, then [total_head_loss]. *)
Definition head_loss_at (L D nu sum_K g material_epsilon V : R) : R :=
  let Re := reynolds_number V D nu in
  let epsilon_D := if Req_dec_T D 0 then 0 else material_epsilon / D in
  match value (colebrook_white_friction_factor Re epsilon_D) with
  | Ok f => total_head_loss f L D V sum_K g
  | Raise _ => 0
  end.

End Engine.

(** [V > 0], the samples the chart keeps. *)
Definition positive (V : R) : bool := if Rle_dec V 0 then false else true.

(** A root finder that reports no convergence, whatever it is asked. *)
Definition no_convergence (f : R -> M R) (m : method) (maxiter : nat)
  : M RootResults :=
  ret {| converged := false; root := 0 |}.

(** A computation that returns, and whose result and warnings satisfy [P]. *)
Definition returns {A} (P : A -> list string -> Prop) (m : M A) : Prop :=
  exists a w, m = (Ok a, w) /\ P a w.

(** [v] is a root the call [m] of the root finder reported: the call
    returned, converged, and its root is [v > 0]. *)
Definition reported (m : M RootResults) (v : R) : Prop :=
  exists sol w, m = (Ok sol, w) /\ converged sol = true /\ root sol = v /\
                0 < v.

End FluidMechanics.

(** ** analysis_app/fluid_mechanics.py, with the range of Python floats

    [FluidMechanics] reads a float as a real number.  Two operations of the
    source do more than compute when their result leaves the range of
    binary64: a power [x ** 2] of a Python float raises [OverflowError]
    when it rounds to infinity, and a product that rounds to zero makes the
    division by it raise.  This module embeds [total_head_loss],
    [energy_equation_for_V] and [solve_velocity] once more with these two
    effects, for the statements about what the functions raise. *)

Module FloatRange.
Import Py FluidMechanics.
Local Open Scope R_scope.
Local Open Scope py_scope.

(** A magnitude of [FLOAT_OVERFLOW] or more rounds to infinity; the largest
    float is [2^1024 - 2^971]. *)
Definition FLOAT_OVERFLOW : R := 2 ^ 1024 - 2 ^ 970.

(** A magnitude of [FLOAT_UNDERFLOW] or less rounds to zero; the smallest
    positive float is [2^-1074]. *)
Definition FLOAT_UNDERFLOW : R := / 2 ^ 1075.

(** [x ** 2] for a Python float [x]. *)
Definition float_square (x : R) : M R :=
  if Rle_dec FLOAT_OVERFLOW (x ^ 2) then raise OverflowError
  else if Rle_dec (x ^ 2) FLOAT_UNDERFLOW then ret 0
  else ret (x ^ 2).

(** [x * y] for Python floats, as far as being zero goes. *)
Definition float_mul (x y : R) : R :=
  if Rle_dec (Rabs (x * y)) FLOAT_UNDERFLOW then 0 else x * y.

Definition total_head_loss (f L D V sum_K g : R) : M R :=
  if Rle_dec D 0 then ret 0
  else if Rle_dec g 0 then ret 0
  else
    V2 <- float_square V ;;
    let velocity_head := V2 / (2 * g) in
    let Hf := f * (L / D) * velocity_head in
    let Hm := sum_K * velocity_head in
    ret (Hf + Hm).

Section Engine.
Variable root_scalar : (R -> M R) -> method -> nat -> M RootResults.

Definition energy_equation_for_V (V P1 P2 z1 z2 L D rho nu sum_K g : R)
  (material_epsilon : option R) : M R :=
  if Rle_dec V 0 then ret 1e10
  else
    let Re := reynolds_number V D nu in
    if Req_dec_T D 0 then ret 1e10
    else
      let epsilon_D :=
        match material_epsilon with Some e => e / D | None => 0 end in
      f <- colebrook_white_friction_factor root_scalar Re epsilon_D ;;
      hL <- total_head_loss f L D V sum_K g ;;
      head <- pydiv (P1 - P2) (float_mul rho g) ;;
      let delta_z_p := head + (z1 - z2) in
      ret (hL - delta_z_p).

(** The inner [try] of the second strategy of [solve_velocity]: the
    estimate [V_est] the secant search is seeded around. *)
Definition velocity_estimate (P1 P2 z1 z2 rho g V_min V_max : R) : M R :=
  try_except
    (head <- pydiv (P1 - P2) (float_mul rho g) ;;
     let delta_z_p := head + (z1 - z2) in
     if Rlt_dec 0 delta_z_p
     then ret (sqrt (2 * g * delta_z_p))
     else ret ((V_min + V_max) / 2))
    (fun _ => ret ((V_min + V_max) / 2)).

Definition solve_velocity (P1 P2 z1 z2 L D rho nu sum_K g : R)
  (material_epsilon : option R) (V_min V_max : R) : M solution :=
  D2 <- float_square D ;;
  let Area := PI * D2 / 4 in
  let F := fun V =>
    energy_equation_for_V V P1 P2 z1 z2 L D rho nu sum_K g material_epsilon in
  r1 <- stage
          (f_low <- F V_min ;;
           f_high <- F V_max ;;
           if Req_dec_T (sign f_low) (sign f_high) then ret None
           else
             sol <- root_scalar F (brentq V_min V_max) 200 ;;
             ret (accepted sol)) ;;
  match r1 with
  | Some V => ret (Some V, Some (V * Area))
  | None =>
      r2 <- stage
              (V_est <- velocity_estimate P1 P2 z1 z2 rho g V_min V_max ;;
               let x0 := Rmax V_min (V_est * 0.5) in
               let x1 := Rmin V_max (V_est * 1.5) in
               sol <- root_scalar F (secant x0 x1) 200 ;;
               ret (accepted sol)) ;;
      match r2 with
      | Some V => ret (Some V, Some (V * Area))
      | None =>
          r3 <- stage
                  (sol <- root_scalar F (newton ((V_min + V_max) / 2)) 200 ;;
                   ret (accepted sol)) ;;
          match r3 with
          | Some V => ret (Some V, Some (V * Area))
          | None =>
              warn "No se pudo resolver la velocidad con las estrategias disponibles." ;;;
              ret (None, None)
          end
      end
  end.

(** What it is for each strategy of [solve_velocity] to produce a
    convergent positive root [V] of [F].  The bracket search is tried only
    when [F] returns at both ends of the bracket with different signs. *)
Definition bracket_yields (F : R -> M R) (V_min V_max V : R) : Prop :=
  (exists f_low f_high w w',
     F V_min = (Ok f_low, w) /\ F V_max = (Ok f_high, w') /\
     sign f_low <> sign f_high) /\
  reported (root_scalar F (brentq V_min V_max) 200) V.

Definition secant_yields (F : R -> M R) (V_min V_max V_est V : R) : Prop :=
  reported
    (root_scalar F
       (secant (Rmax V_min (V_est * 0.5)) (Rmin V_max (V_est * 1.5))) 200) V.

Definition newton_yields (F : R -> M R) (V_min V_max V : R) : Prop :=
  reported (root_scalar F (newton ((V_min + V_max) / 2)) 200) V.

(** [V] is the root of the first strategy, in the order bracket, secant,
    Newton, that produces one. *)
Definition first_yield (F : R -> M R) (V_min V_max V_est V : R) : Prop :=
  bracket_yields F V_min V_max V \/
  (~ (exists v, bracket_yields F V_min V_max v) /\
   secant_yields F V_min V_max V_est V) \/
  (~ (exists v, bracket_yields F V_min V_max v) /\
   ~ (exists v, secant_yields F V_min V_max V_est v) /\
   newton_yields F V_min V_max V).

(** No strategy produces a root. *)
Definition no_yield (F : R -> M R) (V_min V_max V_est : R) : Prop :=
  ~ (exists v, bracket_yields F V_min V_max v) /\
  ~ (exists v, secant_yields F V_min V_max V_est v) /\
  ~ (exists v, newton_yields F V_min V_max v).

End Engine.

End FloatRange.

(** ** analysis_app/forms.py *)

Module Forms.
Import Py.
Local Open Scope R_scope.

(** [FluidInputForm.clean]: the errors it adds, as [(field, message)], in
    the order they are added.  The arguments are what [cleaned_data.get]
    answers for ['input_type'], ['velocity'] and ['caudal']. *)
Definition clean (input_type : option string) (velocity caudal : option R)
  : list (string * string) :=
  let missing_or_nonpositive (x : option R) : bool :=
    match x with
    | None => true
    | Some v => if Rle_dec v 0 then true else false
    end in
  let chosen (s : string) : bool :=
    match input_type with Some t => String.eqb t s | None => false end in
  (if chosen "V"%string && missing_or_nonpositive velocity
   then [("velocity"%string,
          "Debe ingresar una Velocidad (V) positiva cuando selecciona esta opción."%string)]
   else [])
  ++
  (if chosen "Q"%string && missing_or_nonpositive caudal
   then [("caudal"%string,
          "Debe ingresar un Caudal (Q) positivo cuando selecciona esta opción."%string)]
   else []).

End Forms.

(** ** analysis_app/views.py: the computations of [calculate_fluid_flow] *)

Module Views.
Import Py FluidMechanics.

Local Open Scope R_scope.
Local Open Scope py_scope.

(** [x or 0.0] for an optional float. *)
Definition or_zero (x : option R) : R :=
  match x with
  | None => 0
  | Some v => v
  end.

(** Steps 3 and 4: the area, its check, and the input pair [(V, Q)].
    [D] is a Python float: its square may leave the float range. *)
Definition input_flow (input_type : string) (velocity caudal : option R)
  (D : R) : M (R * R) :=
  D2 <- FloatRange.float_square D ;;
  let Area := PI * D2 / 4 in
  if Rle_dec Area 0 then
    raise (ValueError "El diámetro interno es cero o negativo.")
  else if String.eqb input_type "V" then
    let V := or_zero velocity in
    let Q := V * Area in
    ret (V, Q)
  else
    let Q := or_zero caudal in
    let V := if Rlt_dec 0 Area then Q / Area else 0 in
    ret (V, Q).

Section Dispatch.
Variable root_scalar : (R -> M R) -> method -> nat -> M RootResults.

(** What the forward computation reports. *)
Record forward_results : Type := {
  res_Re : R;
  res_f : R;
  res_hL : R;
  res_delta_P : R;
  res_power : R
}.

(** Step 5, the forward computation from a known [V] and [Q]; [V] is a
    Python float, whose square [total_head_loss] takes. *)
Definition forward (V Q D nu epsilon L sum_K g rho : R) (system : string)
  (pump_efficiency : R) : M forward_results :=
  let Re := reynolds_number V D nu in
  epsilon_D <- pydiv epsilon D ;;
  f <- colebrook_white_friction_factor root_scalar Re epsilon_D ;;
  hL <- FloatRange.total_head_loss f L D V sum_K g ;;
  let delta_P := pressure_drop rho g hL in
  power <- pumping_power Q delta_P system pump_efficiency ;;
  ret {| res_Re := Re; res_f := f; res_hL := hL; res_delta_P := delta_P;
         res_power := power |}.

(** Step 6: the sampling range of the chart. *)
Definition chart_range (system : string) : R * R * Z :=
  if String.eqb system "SI" then (0.5, 5, 20%Z) else (1, 15, 20%Z).

Definition chart_raw_data (system : string) (L D nu sum_K g epsilon : R)
  : M (list (R * R)) :=
  let '(V_min, V_max, steps) := chart_range system in
  generate_hl_vs_v_data root_scalar V_min V_max steps L D nu sum_K g epsilon.

End Dispatch.

End Views.

(** * Properties *)

(** ** The lookup tables *)

Module DataTablesSpec.
Import PyStr DataTables.
Local Open Scope Q_scope.

Section DictFacts.
Context {K V : Type} (key_eqb : K -> K -> bool).

Lemma dict_get_None (d : list (K * V)) (k : K) :
  dict_get key_eqb d k = None <->
  Forall (fun e => key_eqb k (fst e) = false) d.
Proof.
  induction d as [|[k' v] d IH]; simpl.
  - split; [constructor | reflexivity].
  - destruct (dict_get key_eqb d k) as [v'|] eqn:Hrest.
    + split; [discriminate|].
      intros H; inversion H; subst.
      apply IH in H3; discriminate.
    + destruct (key_eqb k k') eqn:Hk.
      * split; [discriminate|].
        intros H; inversion H; subst; simpl in *; congruence.
      * split; [|reflexivity].
        intros _; constructor; [exact Hk | apply IH; reflexivity].
Qed.

End DictFacts.

(** *** get_pipe_diameter *)

Lemma is_SI_true (system : string) : is_SI system = true <-> system = "SI"%string.
Proof. apply String.eqb_eq. Qed.

Lemma is_SI_false (system : string) :
  is_SI system = false <-> system <> "SI"%string.
Proof. apply String.eqb_neq. Qed.

(** C10.  A [(nominal, schedule)] pair the table does not hold is answered
    with the nominal value itself: unchanged for the system ['SI'], and
    [(nominal / 3.28084) * 3.28084] for any other system; the function has
    no failing case.  A pair the table holds is answered with the table's
    value, in metres for ['SI'] and multiplied by [3.28084] otherwise. *)
Theorem get_pipe_diameter_spec (nominal : Q) (schedule : Z) (system : string) :
  (dict_get pipe_key_eqb PIPE_DIAMETERS_M (nominal, schedule) = None ->
   (system = "SI"%string ->
    get_pipe_diameter nominal schedule system = nominal) /\
   (system <> "SI"%string ->
    get_pipe_diameter nominal schedule system
    = (nominal / 3.28084) * 3.28084)) /\
  (forall d : Q,
   dict_get pipe_key_eqb PIPE_DIAMETERS_M (nominal, schedule) = Some d ->
   (system = "SI"%string ->
    get_pipe_diameter nominal schedule system = d) /\
   (system <> "SI"%string ->
    get_pipe_diameter nominal schedule system = d * 3.28084)).
Proof.
  unfold get_pipe_diameter, CONVERSION_M_TO_FT.
  split.
  - intros ->. split; intros Hs.
    + apply is_SI_true in Hs. rewrite Hs. reflexivity.
    + apply is_SI_false in Hs. rewrite Hs. reflexivity.
  - intros d ->. split; intros Hs.
    + apply is_SI_true in Hs. rewrite Hs. reflexivity.
    + apply is_SI_false in Hs. rewrite Hs. reflexivity.
Qed.

Lemma get_pipe_diameter_spec_witness :
  get_pipe_diameter 0.06 40 "INGLES" = (0.06 / 3.28084) * 3.28084 /\
  get_pipe_diameter 0.06 40 "SI" = 0.06 /\
  get_pipe_diameter 0.5 40 "SI" = 0.0158 /\
  get_pipe_diameter 0.5 40 "INGLES" = 0.0158 * 3.28084.
Proof.
  split; [|split; [|split]].
  - apply (proj1 (get_pipe_diameter_spec 0.06 40 "INGLES"));
      [reflexivity | discriminate].
  - apply (proj1 (get_pipe_diameter_spec 0.06 40 "SI")); reflexivity.
  - apply (proj2 (get_pipe_diameter_spec 0.5 40 "SI") 0.0158); reflexivity.
  - apply (proj2 (get_pipe_diameter_spec 0.5 40 "INGLES") 0.0158);
      [reflexivity | discriminate].
Defined.

(** The pair is "not a key" exactly when no entry of the table compares
    equal to it. *)
Lemma pipe_key_absent (nominal : Q) (schedule : Z) :
  dict_get pipe_key_eqb PIPE_DIAMETERS_M (nominal, schedule) = None <->
  forall k d, In (k, d) PIPE_DIAMETERS_M ->
              ~ (nominal == fst k /\ schedule = snd k).
Proof.
  rewrite dict_get_None, Forall_forall. split.
  - intros H k d Hin [Hn Hs]. specialize (H _ Hin). simpl in H.
    unfold pipe_key_eqb in H. simpl in H.
    apply andb_false_iff in H. destruct H as [H|H].
    + apply Qeq_bool_iff in Hn. congruence.
    + apply Z.eqb_neq in H. contradiction.
  - intros H [k d] Hin. simpl. unfold pipe_key_eqb. simpl.
    apply andb_false_iff.
    destruct (Qeq_bool nominal (fst k)) eqn:Hq; [right|left; reflexivity].
    apply Z.eqb_neq. intros Hs. apply (H k d Hin). split; [|exact Hs].
    apply Qeq_bool_iff; exact Hq.
Qed.

(** Off the table and off ['SI'], the answer is the nominal value again,
    as a number. *)
Lemma get_pipe_diameter_miss_value (nominal : Q) (schedule : Z)
  (system : string) :
  dict_get pipe_key_eqb PIPE_DIAMETERS_M (nominal, schedule) = None ->
  get_pipe_diameter nominal schedule system == nominal.
Proof.
  intros Hmiss. unfold get_pipe_diameter. rewrite Hmiss.
  destruct (is_SI system); [reflexivity|].
  unfold CONVERSION_M_TO_FT. field.
Qed.

(** *** get_minor_loss_k *)

Lemma lower_char_not_upper (c : N) : is_ascii_upper (lower_char c) = false.
Proof.
  unfold lower_char.
  destruct (is_ascii_upper c) eqn:Ha; simpl.
  - unfold is_ascii_upper in *.
    apply andb_true_iff in Ha. destruct Ha as [H1 H2].
    apply N.leb_le in H1, H2.
    apply andb_false_iff. right. apply N.leb_gt. lia.
  - destruct (is_latin1_upper c) eqn:Hl; [|exact Ha].
    unfold is_latin1_upper in Hl.
    apply andb_true_iff in Hl. destruct Hl as [Hl _].
    apply andb_true_iff in Hl. destruct Hl as [H1 _].
    apply N.leb_le in H1.
    unfold is_ascii_upper. apply andb_false_iff. right. apply N.leb_gt. lia.
Qed.

Lemma lower_no_upper (s : str) :
  Forall (fun c => is_ascii_upper c = false) (lower s).
Proof.
  unfold lower. induction s; simpl; constructor;
    auto using lower_char_not_upper.
Qed.

Lemma lstrip_Forall (P : N -> Prop) (s : str) :
  Forall P s -> Forall P (lstrip s).
Proof.
  induction 1 as [|c s Hc Hs IH]; simpl; [constructor|].
  destruct (is_space c); [exact IH | constructor; assumption].
Qed.

Lemma strip_Forall (P : N -> Prop) (s : str) :
  Forall P s -> Forall P (strip s).
Proof.
  intros H. unfold strip, rstrip.
  apply Forall_rev, lstrip_Forall, Forall_rev, lstrip_Forall, H.
Qed.

Lemma normalised_not_upper (s : str) : starts_upper (strip (lower s)) = false.
Proof.
  pose proof (strip_Forall _ _ (lower_no_upper s)) as H.
  destruct (strip (lower s)) as [|c t]; [reflexivity|].
  inversion H; assumption.
Qed.

Lemma eqb_starts_upper (s t : str) :
  PyStr.eqb s t = true -> starts_upper s = starts_upper t.
Proof.
  destruct s as [|c s], t as [|d t]; simpl; try discriminate; auto.
  intros H. apply andb_true_iff in H. destruct H as [H _].
  apply N.eqb_eq in H. congruence.
Qed.

Lemma keys_start_upper :
  Forall (fun e : str * Q => starts_upper (fst e) = true)
         MINOR_LOSS_COEFFICIENTS.
Proof.
  apply Forall_forall. intros e Hin.
  assert (Hall : forallb (fun e : str * Q => starts_upper (fst e))
                   MINOR_LOSS_COEFFICIENTS = true) by (vm_compute; reflexivity).
  rewrite forallb_forall in Hall. apply Hall, Hin.
Qed.

Lemma minor_loss_lookup_misses (s : str) :
  dict_get PyStr.eqb MINOR_LOSS_COEFFICIENTS (strip (lower s)) = None.
Proof.
  apply dict_get_None.
  eapply Forall_impl; [|exact keys_start_upper].
  intros [k v] Hk. simpl in *.
  destruct (PyStr.eqb (strip (lower s)) k) eqn:He; [|reflexivity].
  apply eqb_starts_upper in He.
  rewrite normalised_not_upper, Hk in He. discriminate.
Qed.

(** C1.  The table holds ["Rejilla de Entrada"] with the coefficient
    [0.80], yet looking that very name up answers [0.0]: the name is
    lowercased before the lookup while every key of the table begins with a
    capital letter, so no name at all reaches an entry. *)
Theorem get_minor_loss_k_never_matches :
  dict_get PyStr.eqb MINOR_LOSS_COEFFICIENTS (utf8 "Rejilla de Entrada")
  = Some 0.80 /\
  get_minor_loss_k (utf8 "Rejilla de Entrada") = 0.0 /\
  get_minor_loss_k (utf8 "rejilla de entrada") = 0.0 /\
  (forall s : str, get_minor_loss_k s = 0.0).
Proof.
  split; [|split; [|split]]; try (vm_compute; reflexivity).
  intros s. unfold get_minor_loss_k, dict_get_default.
  rewrite minor_loss_lookup_misses. reflexivity.
Qed.

End DataTablesSpec.

(** ** The numerical engine *)

Module FluidMechanicsSpec.
Import Py FluidMechanics.
Local Open Scope R_scope.
Local Open Scope py_scope.

(** *** Real-number facts used below *)

Lemma ln_10_pos : 0 < ln 10.
Proof. rewrite <- ln_1. apply ln_increasing; lra. Qed.

Lemma log10_unit_decade (a : R) : 0.1 <= a < 1 -> -1 <= log10 a < 0.
Proof.
  intros [Hlo Hhi]. pose proof ln_10_pos as H10.
  assert (Hln : - ln 10 <= ln a).
  { replace (- ln 10) with (ln (/ 10)) by (apply ln_Rinv; lra).
    destruct Hlo as [Hlt|Heq].
    - left. apply ln_increasing; lra.
    - right. f_equal. lra. }
  assert (Hneg : ln a < 0).
  { rewrite <- ln_1. apply ln_increasing; lra. }
  unfold log10. split.
  - apply Rmult_le_reg_r with (ln 10); [exact H10|].
    unfold Rdiv. rewrite Rmult_assoc, Rinv_l by lra. lra.
  - apply Rmult_lt_reg_r with (ln 10); [exact H10|].
    unfold Rdiv. rewrite Rmult_assoc, Rinv_l by lra. lra.
Qed.

Lemma Rpower_09_lower (Re : R) : 2000 <= Re -> 7 < Rpower Re 0.9.
Proof.
  intros HRe.
  apply Rlt_trans with (Rpower Re (/ 2)).
  - rewrite Rpower_sqrt by lra.
    replace 7 with (sqrt (7 * 7)) by (apply sqrt_square; lra).
    apply sqrt_lt_1; lra.
  - apply Rpower_lt; lra.
Qed.

Section EngineFacts.
Variable root_scalar : (R -> M R) -> method -> nat -> M RootResults.

(** *** colebrook_white_friction_factor: the two simple cases *)

(** C3.  For [0 < Re < 2000] and any relative roughness, the friction factor
    is [64 / Re], returned at once: no warning is emitted and the root
    finder is not consulted, whatever it is. *)
Theorem colebrook_laminar (Re epsilon_D : R) :
  0 < Re -> Re < 2000 ->
  colebrook_white_friction_factor root_scalar Re epsilon_D = ret (64 / Re).
Proof.
  intros Hpos Hlam. unfold colebrook_white_friction_factor.
  destruct (Rle_dec Re 0) as [Hle|_]; [lra|].
  destruct (Rlt_dec Re 2000) as [_|Hge]; [reflexivity|lra].
Qed.

(** C8.  For [Re <= 0] and any relative roughness, the friction factor is
    [0], nothing is raised, and one warning about the Reynolds number is
    emitted. *)
Theorem colebrook_invalid_reynolds (Re epsilon_D : R) :
  Re <= 0 ->
  colebrook_white_friction_factor root_scalar Re epsilon_D
  = (Ok 0,
     ["Re <= 0 en colebrook_white_friction_factor; devolviendo 0.0"%string]).
Proof.
  intros Hle. unfold colebrook_white_friction_factor.
  destruct (Rle_dec Re 0) as [_|Hgt]; [reflexivity|contradiction].
Qed.

End EngineFacts.

(** *** The seeds of the secant search *)

Lemma swamee_jain_very_rough (Re : R) :
  2000 <= Re -> 0.25 <= swamee_jain Re 0.37.
Proof.
  intros HRe. unfold swamee_jain.
  pose proof (Rpower_09_lower Re HRe) as Hp.
  set (p := Rpower Re 0.9) in *.
  assert (Hq : 0 < 5.74 / p < 0.9).
  { split.
    - apply Rdiv_lt_0_compat; lra.
    - apply Rmult_lt_reg_r with p; [lra|].
      unfold Rdiv. rewrite Rmult_assoc, Rinv_l by lra. lra. }
  assert (Ha : 0.1 <= 0.37 / 3.7 + 5.74 / p < 1) by lra.
  apply log10_unit_decade in Ha.
  set (l := log10 (0.37 / 3.7 + 5.74 / p)) in *.
  assert (Hsq : 0 < l ^ 2 <= 1) by nra.
  apply Rmult_le_reg_r with (l ^ 2); [lra|].
  unfold Rdiv. rewrite Rmult_assoc, Rinv_l by lra. lra.
Qed.

(** C4, as the claim has it, fails: at [Re = 2000] and a relative roughness
    of [0.37] both seeds are above [0.1]. *)
Lemma secant_seeds_outside_bracket :
  2000 <= 2000 /\
  0.1 < fst (secant_seeds (swamee_jain 2000 0.37)) /\
  0.1 < snd (secant_seeds (swamee_jain 2000 0.37)).
Proof.
  assert (H : 0.25 <= swamee_jain 2000 0.37)
    by (apply swamee_jain_very_rough; lra).
  unfold secant_seeds. simpl. split; [lra|]. split.
  - apply Rlt_le_trans with (swamee_jain 2000 0.37 * 0.8); [lra|].
    apply Rmax_r.
  - apply Rmin_glb_lt; lra.
Qed.

(** C4, amended.  The first seed is [0.8 * f0] kept above [1e-6], the
    second is [1.2 * f0] kept below [0.5]; both are inside the bracket
    [[1e-6, 0.1]] exactly when [1.2 * f0] is. *)
Theorem secant_seeds_bounds (f0 : R) :
  secant_seeds f0 = (Rmax 1e-6 (0.8 * f0), Rmin 0.5 (1.2 * f0)) /\
  1e-6 <= fst (secant_seeds f0) /\
  snd (secant_seeds f0) <= 0.5 /\
  ((1e-6 <= fst (secant_seeds f0) <= 0.1 /\
    1e-6 <= snd (secant_seeds f0) <= 0.1)
   <-> 1e-6 <= 1.2 * f0 <= 0.1).
Proof.
  unfold secant_seeds. simpl.
  replace (f0 * 0.8) with (0.8 * f0) by ring.
  replace (f0 * 1.2) with (1.2 * f0) by ring.
  split; [reflexivity|].
  split; [apply Rmax_l|].
  split; [apply Rmin_l|].
  unfold Rmax, Rmin.
  destruct (Rle_dec 1e-6 (0.8 * f0)), (Rle_dec 0.5 (1.2 * f0)); lra.
Qed.

(** The constant guess [0.02] gives seeds inside the bracket. *)
Lemma secant_seeds_bounds_witness :
  1e-6 <= fst (secant_seeds 0.02) <= 0.1 /\
  1e-6 <= snd (secant_seeds 0.02) <= 0.1.
Proof.
  apply (proj2 (proj2 (proj2 (secant_seeds_bounds 0.02)))). lra.
Defined.

(** *** pumping_power *)

(** C5.  [pumping_power] raises exactly when [efficiency <= 0], and then it
    raises the efficiency error at once.  For a positive efficiency it
    returns [Q * delta_P / efficiency] for the system ['SI'], and
    [(Q * delta_P / 550) / efficiency] for any other system, ['INGLES']
    among them. *)
Theorem pumping_power_spec (Q delta_P : R) (system : string) (efficiency : R) :
  (raises (pumping_power Q delta_P system efficiency) <-> efficiency <= 0) /\
  (efficiency <= 0 ->
   pumping_power Q delta_P system efficiency
   = raise (ValueError "La eficiencia debe ser positiva y mayor que 0.")) /\
  (0 < efficiency -> system = "SI"%string ->
   pumping_power Q delta_P system efficiency
   = ret (Q * delta_P / efficiency)) /\
  (0 < efficiency -> system <> "SI"%string ->
   pumping_power Q delta_P system efficiency
   = ret ((Q * delta_P / 550) / efficiency)).
Proof.
  unfold pumping_power, raises, is_SI.
  destruct (Rle_dec efficiency 0) as [Hle|Hgt].
  - split; [|split; [|split]]; try (intros; lra); try reflexivity.
    split; [intros _; exact Hle|]. intros _. eexists. reflexivity.
  - split; [|split; [|split]].
    + split; [|intros; lra].
      intros [e He]. destruct (String.eqb system "SI"); discriminate.
    + intros; lra.
    + intros _ ->. reflexivity.
    + intros _ Hs. apply String.eqb_neq in Hs. rewrite Hs. reflexivity.
Qed.

Lemma pumping_power_spec_witness :
  pumping_power 0.01 5000 "INGLES" 0.5 = ret ((0.01 * 5000 / 550) / 0.5) /\
  pumping_power 0.01 5000 "SI" 0.5 = ret (0.01 * 5000 / 0.5) /\
  raises (pumping_power 0.01 5000 "SI" 0).
Proof.
  split; [|split].
  - apply (pumping_power_spec 0.01 5000 "INGLES" 0.5); [lra|discriminate].
  - apply (pumping_power_spec 0.01 5000 "SI" 0.5); [lra|reflexivity].
  - apply (proj1 (pumping_power_spec 0.01 5000 "SI" 0)). lra.
Defined.

(** *** total_head_loss *)

Lemma total_head_loss_eq (f L D V sum_K g : R) :
  0 < D -> 0 < g ->
  total_head_loss f L D V sum_K g = (f * (L / D) + sum_K) * (V ^ 2 / (2 * g)).
Proof.
  intros HD Hg. unfold total_head_loss.
  destruct (Rle_dec D 0); [lra|].
  destruct (Rle_dec g 0); [lra|].
  ring.
Qed.

(** C7, as the claim has it, fails: with [f = 0] and [sum_K = 0] the head
    loss is [0] at every velocity. *)
Lemma total_head_loss_flat :
  (0 <= 0 /\ 0 < 100 /\ 0 < 0.1 /\ 0 <= 0 /\ 0 < 9.81 /\ 0 < 1 /\ 1 < 2) /\
  ~ (total_head_loss 0 100 0.1 1 0 9.81 < total_head_loss 0 100 0.1 2 0 9.81).
Proof.
  split; [lra|].
  rewrite !total_head_loss_eq by lra. lra.
Qed.

(** C7, amended.  With [f >= 0] and [sum_K >= 0] not both zero, [L > 0],
    [D > 0] and [g > 0], the head loss is strictly increasing in [V] over
    [V > 0]. *)
Theorem total_head_loss_increasing (f L D sum_K g V1 V2 : R) :
  0 <= f -> 0 < L -> 0 < D -> 0 <= sum_K -> 0 < g ->
  0 < f \/ 0 < sum_K ->
  0 < V1 -> V1 < V2 ->
  total_head_loss f L D V1 sum_K g < total_head_loss f L D V2 sum_K g.
Proof.
  intros Hf HL HD HK Hg Hpos HV1 HV12.
  rewrite !total_head_loss_eq by assumption.
  assert (HLD : 0 < L / D) by (apply Rdiv_lt_0_compat; assumption).
  assert (Hc : 0 < f * (L / D) + sum_K).
  { destruct Hpos as [Hf'|HK'].
    - assert (0 < f * (L / D)) by (apply Rmult_lt_0_compat; assumption). lra.
    - assert (0 <= f * (L / D)) by (apply Rmult_le_pos; lra). lra. }
  apply Rmult_lt_compat_l; [exact Hc|].
  unfold Rdiv. apply Rmult_lt_compat_r.
  - apply Rinv_0_lt_compat. lra.
  - nra.
Qed.

Lemma total_head_loss_increasing_witness :
  total_head_loss 0.02 100 0.1 1 0 9.81 < total_head_loss 0.02 100 0.1 2 0 9.81.
Proof.
  apply (total_head_loss_increasing 0.02 100 0.1 0 9.81 1 2); lra.
Defined.

(** *** Reasoning about computations *)

Lemma returns_ret {A} (P : A -> list string -> Prop) (a : A) :
  P a [] -> returns P (ret a).
Proof. intros H. exists a, []. auto. Qed.

Lemma returns_warn (msg : string) :
  returns (fun _ w => w = [msg]) (warn msg).
Proof. exists tt, [msg]. auto. Qed.

Lemma returns_bind {A B} (Q : A -> list string -> Prop)
  (P : B -> list string -> Prop) (m : M A) (k : A -> M B) :
  returns Q m ->
  (forall a w, Q a w -> returns (fun b w' => P b (w ++ w')) (k a)) ->
  returns P (bind m k).
Proof.
  intros (a & w & -> & HQ) Hk.
  destruct (Hk a w HQ) as (b & w' & Hb & HP).
  exists b, (w ++ w'). unfold bind. rewrite Hb. auto.
Qed.

(** A stage never raises; what it returns, its body returned. *)
Lemma returns_stage {A} (Q : A -> Prop) (body : M (option A)) :
  (forall v w, body = (Ok (Some v), w) -> Q v) ->
  returns (fun r _ => forall v, r = Some v -> Q v) (stage body).
Proof.
  intros Hbody. unfold stage, try_except.
  destruct body as [[r|e] w].
  - exists r, w. split; [reflexivity|].
    intros v ->. eapply Hbody. reflexivity.
  - exists None, (w ++ []). split; [reflexivity|]. discriminate.
Qed.

Lemma bind_Ok_inv {A B} (m : M A) (k : A -> M B) (b : B) (w : list string) :
  bind m k = (Ok b, w) ->
  exists a w1 w2, m = (Ok a, w1) /\ k a = (Ok b, w2) /\ w = w1 ++ w2.
Proof.
  destruct m as [[a|e] w1]; simpl; [|discriminate].
  destruct (k a) as [r w2] eqn:Hk. intros [= -> <-].
  exists a, w1, w2. auto.
Qed.

Lemma accepted_positive (sol : RootResults) (v : R) :
  accepted sol = Some v -> 0 < v.
Proof.
  unfold accepted.
  destruct (converged sol); [|discriminate].
  destruct (Rlt_dec 0 (root sol)); [|discriminate].
  intros [= <-]. assumption.
Qed.

Lemma accepting_positive (m : M RootResults) (v : R) (w : list string) :
  bind m (fun sol => ret (accepted sol)) = (Ok (Some v), w) -> 0 < v.
Proof.
  intros H. apply bind_Ok_inv in H.
  destruct H as (sol & w1 & w2 & _ & Hret & _).
  injection Hret as Hacc _. eapply accepted_positive, Hacc.
Qed.


(** *** np.linspace *)

Lemma linspace_length (start stop : R) (num : nat) :
  List.length (linspace start stop num) = num.
Proof. unfold linspace. rewrite length_map, length_seq. reflexivity. Qed.

Lemma linspace_nth (start stop : R) (num i : nat) :
  (i < num)%nat ->
  nth i (linspace start stop num) 0
  = start + INR i * linspace_step start stop num.
Proof.
  intros Hi. unfold linspace. cbv zeta.
  set (f := fun i : nat => start + INR i * linspace_step start stop num).
  rewrite (nth_indep _ 0 (f O))
    by (rewrite length_map, length_seq; exact Hi).
  rewrite map_nth, seq_nth by exact Hi. reflexivity.
Qed.

Lemma linspace_single (start stop : R) : linspace start stop 1 = [start].
Proof. unfold linspace, linspace_step. simpl. f_equal. ring. Qed.

Lemma linspace_last (start stop : R) (num : nat) :
  (2 <= num)%nat -> nth (num - 1) (linspace start stop num) 0 = stop.
Proof.
  intros Hn. rewrite linspace_nth by lia. unfold linspace_step.
  destruct (num - 1)%nat as [|d] eqn:Hd; [lia|].
  assert (Hpos : 0 < INR (S d)) by (apply lt_0_INR; lia).
  field. lra.
Qed.

Section Monotone.
Variable rel : R -> R -> Prop.

Lemma map_seq_sorted (f : nat -> R) (a n : nat) :
  (forall i j, (i < j)%nat -> rel (f i) (f j)) ->
  StronglySorted rel (map f (seq a n)).
Proof.
  intros Hf. revert a. induction n as [|n IH]; intros a; simpl.
  - constructor.
  - constructor; [apply IH|].
    apply Forall_forall. intros x Hx.
    apply in_map_iff in Hx. destruct Hx as (j & <- & Hj).
    apply in_seq in Hj. apply Hf. lia.
Qed.

Lemma filter_sorted (p : R -> bool) (l : list R) :
  StronglySorted rel l -> StronglySorted rel (filter p l).
Proof.
  induction 1 as [|x l Hl IH Hx]; simpl; [constructor|].
  destruct (p x); [|exact IH].
  constructor; [exact IH|].
  apply Forall_forall. intros y Hy. apply filter_In in Hy.
  rewrite Forall_forall in Hx. apply Hx, Hy.
Qed.

End Monotone.

Lemma linspace_step_nonneg (start stop : R) (num : nat) :
  start <= stop -> 0 <= linspace_step start stop num.
Proof.
  intros H. unfold linspace_step.
  destruct (num - 1)%nat as [|d] eqn:Hd; [lra|].
  assert (0 < INR (S d)) by (apply lt_0_INR; lia).
  apply Rmult_le_pos; [lra|]. left. apply Rinv_0_lt_compat. assumption.
Qed.

Lemma linspace_step_pos (start stop : R) (num : nat) :
  start < stop -> 0 < linspace_step start stop num.
Proof.
  intros H. unfold linspace_step.
  destruct (num - 1)%nat as [|d] eqn:Hd; [lra|].
  assert (0 < INR (S d)) by (apply lt_0_INR; lia).
  apply Rdiv_lt_0_compat; lra.
Qed.

Lemma linspace_unfold (start stop : R) (num : nat) :
  linspace start stop num
  = map (fun i => start + INR i * linspace_step start stop num) (seq 0 num).
Proof. reflexivity. Qed.

Lemma linspace_sorted (start stop : R) (num : nat) :
  start <= stop -> StronglySorted Rle (linspace start stop num).
Proof.
  intros H. rewrite linspace_unfold. apply map_seq_sorted.
  intros i j Hij. pose proof (linspace_step_nonneg start stop num H).
  apply lt_INR in Hij. nra.
Qed.

Lemma linspace_strictly_sorted (start stop : R) (num : nat) :
  start < stop -> StronglySorted Rlt (linspace start stop num).
Proof.
  intros H. rewrite linspace_unfold. apply map_seq_sorted.
  intros i j Hij. pose proof (linspace_step_pos start stop num H).
  apply lt_INR in Hij. nra.
Qed.

Section ChartFacts.
Variable root_scalar : (R -> M R) -> method -> nat -> M RootResults.

(** *** colebrook_white_friction_factor always answers *)

Lemma colebrook_returns (Re epsilon_D : R) :
  returns (fun _ _ => True)
    (colebrook_white_friction_factor root_scalar Re epsilon_D).
Proof.
  unfold colebrook_white_friction_factor.
  destruct (Rle_dec Re 0).
  { eapply returns_bind; [apply returns_warn|].
    intros; apply returns_ret; exact I. }
  destruct (Rlt_dec Re 2000); [apply returns_ret; exact I|].
  eapply returns_bind with (Q := fun _ _ => True).
  { eexists _, _. split; [reflexivity|exact I]. }
  intros f_guess w0 _.
  eapply returns_bind; [apply (returns_stage (fun _ => True)); auto|].
  intros [f|] w1 _; [apply returns_ret; exact I|].
  eapply returns_bind; [apply (returns_stage (fun _ => True)); auto|].
  intros [f|] w2 _; [apply returns_ret; exact I|].
  eapply returns_bind; [apply (returns_stage (fun _ => True)); auto|].
  intros [f|] w3 _; [apply returns_ret; exact I|].
  eapply returns_bind; [apply returns_warn|].
  intros; apply returns_ret; exact I.
Qed.

Lemma value_bind {A B} (m : M A) (k : A -> M B) (a : A) :
  value m = Ok a -> value (bind m k) = value (k a).
Proof.
  destruct m as [[a'|e] w]; simpl; [|discriminate].
  intros [= ->]. destruct (k a); reflexivity.
Qed.

(** *** generate_hl_vs_v_data *)

Lemma hl_samples_value (L D nu sum_K g material_epsilon : R)
  (V_values : list R) (data : list (R * R)) :
  value (hl_samples root_scalar V_values L D nu sum_K g material_epsilon data)
  = Ok (data ++
        map (fun V =>
               (V, head_loss_at root_scalar L D nu sum_K g material_epsilon V))
            (filter positive V_values)).
Proof.
  revert data. induction V_values as [|V rest IH]; intros data; simpl.
  - rewrite app_nil_r. reflexivity.
  - unfold positive at 1.
    destruct (Rle_dec V 0) as [Hle|Hgt]; [apply IH|].
    destruct (colebrook_returns (reynolds_number V D nu)
                (if Req_dec_T D 0 then 0 else material_epsilon / D))
      as (f & w & Hf & _).
    rewrite (value_bind _ _ f) by (rewrite Hf; reflexivity).
    rewrite IH. simpl. unfold head_loss_at at 2. rewrite Hf. simpl.
    rewrite <- app_assoc. reflexivity.
Qed.

(** C9.  [generate_hl_vs_v_data] raises exactly when [steps <= 0], and then
    it is the configuration error.  For [steps >= 1] it returns the pairs
    [(V, hL(V))], in the order of the partition, for exactly the points [V]
    of the uniform partition of [[V_min, V_max]] into [steps] points that are
    positive; each [hL(V)] is computed on its own from the Reynolds number,
    the friction factor and [total_head_loss].  The partition starts at
    [V_min] and advances by a constant step, and the velocities returned
    are in increasing order. *)
Theorem generate_hl_vs_v_data_spec (V_min V_max : R) (steps : Z)
  (L D nu sum_K g material_epsilon : R) :
  let run := generate_hl_vs_v_data root_scalar V_min V_max steps
               L D nu sum_K g material_epsilon in
  let partition := linspace V_min V_max (Z.to_nat steps) in
  (raises run <-> (steps <= 0)%Z) /\
  ((steps <= 0)%Z ->
   run = raise (ValueError "steps debe ser un entero positivo.")) /\
  ((1 <= steps)%Z ->
   value run
   = Ok (map (fun V =>
                (V, head_loss_at root_scalar L D nu sum_K g material_epsilon V))
             (filter positive partition)) /\
   List.length partition = Z.to_nat steps /\
   (forall i : nat, (i < Z.to_nat steps)%nat ->
      nth i partition 0
      = V_min + INR i * linspace_step V_min V_max (Z.to_nat steps)) /\
   ((2 <= steps)%Z -> nth (Z.to_nat steps - 1) partition 0 = V_max) /\
   (V_min <= V_max -> StronglySorted Rle (filter positive partition)) /\
   (V_min < V_max -> StronglySorted Rlt (filter positive partition))).
Proof.
  intros run partition. subst run partition.
  unfold generate_hl_vs_v_data, raises.
  destruct (steps <=? 0)%Z eqn:Hs.
  - apply Z.leb_le in Hs.
    split; [|split]; [|reflexivity|intros; lia].
    split; [intros _; exact Hs|]. intros _. eexists. reflexivity.
  - apply Z.leb_gt in Hs.
    split; [|split]; [|intros; lia|].
    + split; [|intros; lia].
      intros [e He]. rewrite hl_samples_value in He. discriminate.
    + intros _.
      split; [apply hl_samples_value|].
      split; [apply linspace_length|].
      split; [intros i Hi; apply linspace_nth, Hi|].
      split; [intros H2; apply linspace_last; lia|].
      split; intros Hle; apply filter_sorted.
      * apply linspace_sorted, Hle.
      * apply linspace_strictly_sorted, Hle.
Qed.

End ChartFacts.

(** *** Instances *)

Lemma colebrook_laminar_witness :
  colebrook_white_friction_factor no_convergence 1000 0.00045 = ret 0.064.
Proof.
  replace 0.064 with (64 / 1000) by lra.
  apply (colebrook_laminar no_convergence 1000 0.00045); lra.
Defined.

Lemma colebrook_invalid_reynolds_witness :
  colebrook_white_friction_factor no_convergence 0 0.00045
  = (Ok 0,
     ["Re <= 0 en colebrook_white_friction_factor; devolviendo 0.0"%string]).
Proof.
  apply (colebrook_invalid_reynolds no_convergence 0 0.00045). lra.
Defined.

Lemma generate_hl_vs_v_data_spec_witness :
  value (generate_hl_vs_v_data no_convergence 0.5 5 20 100 0.1 1e-6 0 9.81
           4.5e-5)
  = Ok (map (fun V => (V, head_loss_at no_convergence 100 0.1 1e-6 0 9.81
                            4.5e-5 V))
            (filter positive (linspace 0.5 5 (Z.to_nat 20)))) /\
  StronglySorted Rlt (filter positive (linspace 0.5 5 (Z.to_nat 20))) /\
  raises (generate_hl_vs_v_data no_convergence 0.5 5 0 100 0.1 1e-6 0 9.81
            4.5e-5).
Proof.
  split; [|split].
  - apply (generate_hl_vs_v_data_spec no_convergence 0.5 5 20 100 0.1 1e-6 0
             9.81 4.5e-5). lia.
  - apply (generate_hl_vs_v_data_spec no_convergence 0.5 5 20 100 0.1 1e-6 0
             9.81 4.5e-5); [lia|lra].
  - apply (proj1 (generate_hl_vs_v_data_spec no_convergence 0.5 5 0 100 0.1
                    1e-6 0 9.81 4.5e-5)). lia.
Defined.

End FluidMechanicsSpec.

(** ** More on the lookup tables *)

Module DataTablesMore.
Import PyStr DataTables DataTablesSpec.
Local Open Scope Q_scope.

(** *** Normalising a name: [s.lower().strip()] *)

Ltac bool_to_prop H :=
  repeat (rewrite ?orb_true_iff, ?andb_true_iff, ?negb_true_iff,
            ?orb_false_iff, ?andb_false_iff, ?negb_false_iff,
            ?N.leb_le, ?N.leb_gt, ?N.eqb_eq, ?N.eqb_neq in H).

Lemma upper_not_space (c : N) :
  is_ascii_upper c || is_latin1_upper c = true ->
  is_space c = false /\ is_space (c + 32) = false.
Proof.
  intros H. unfold is_ascii_upper, is_latin1_upper in H. bool_to_prop H.
  split.
  - destruct (is_space c) eqn:E; [|reflexivity].
    unfold is_space in E. bool_to_prop E. lia.
  - destruct (is_space (c + 32)) eqn:E; [|reflexivity].
    unfold is_space in E. bool_to_prop E. lia.
Qed.

Lemma lower_char_space (c : N) : is_space (lower_char c) = is_space c.
Proof.
  unfold lower_char.
  destruct (is_ascii_upper c || is_latin1_upper c) eqn:H; [|reflexivity].
  destruct (upper_not_space c H) as [-> ->]. reflexivity.
Qed.

Lemma lower_char_idempotent (c : N) : lower_char (lower_char c) = lower_char c.
Proof.
  unfold lower_char at 1.
  replace (is_ascii_upper (lower_char c) || is_latin1_upper (lower_char c))
    with false; [reflexivity|].
  symmetry. apply orb_false_iff. split; [apply lower_char_not_upper|].
  unfold lower_char.
  destruct (is_ascii_upper c || is_latin1_upper c) eqn:H.
  - unfold is_ascii_upper, is_latin1_upper in H. bool_to_prop H.
    destruct (is_latin1_upper (c + 32)) eqn:E; [|reflexivity].
    unfold is_latin1_upper in E. bool_to_prop E. lia.
  - apply orb_false_iff in H. apply H.
Qed.

Lemma lower_idempotent (s : str) : lower (lower s) = lower s.
Proof.
  unfold lower. rewrite map_map. apply map_ext. apply lower_char_idempotent.
Qed.

Lemma lower_all_space (w : str) : all_space w -> all_space (lower w).
Proof.
  unfold all_space, lower. induction 1; simpl; constructor; auto.
  rewrite lower_char_space. assumption.
Qed.

Lemma lstrip_all_space (w : str) : all_space w -> lstrip w = [].
Proof. induction 1 as [|c w Hc _ IH]; simpl; [|rewrite Hc]; auto. Qed.

Lemma lstrip_pad_left (w s : str) : all_space w -> lstrip (w ++ s) = lstrip s.
Proof. induction 1 as [|c w Hc _ IH]; simpl; [|rewrite Hc]; auto. Qed.

Lemma lstrip_cases (s : str) :
  (all_space s /\ lstrip s = []) \/
  (forall w, lstrip (s ++ w) = lstrip s ++ w).
Proof.
  induction s as [|c s IH]; simpl.
  - left. split; [constructor|reflexivity].
  - destruct (is_space c) eqn:Hc.
    + destruct IH as [[Hall Hnil]|Happ]; [left|right; exact Happ].
      split; [constructor; assumption|exact Hnil].
    + right. intros w. reflexivity.
Qed.

Lemma rstrip_pad_right (s w : str) : all_space w -> rstrip (s ++ w) = rstrip s.
Proof.
  intros Hw. unfold rstrip. rewrite rev_app_distr.
  rewrite lstrip_pad_left; [reflexivity|].
  apply Forall_rev. exact Hw.
Qed.

Lemma strip_pad (w1 s w2 : str) :
  all_space w1 -> all_space w2 -> strip (w1 ++ s ++ w2) = strip s.
Proof.
  intros H1 H2. unfold strip. rewrite lstrip_pad_left by exact H1.
  destruct (lstrip_cases s) as [[Hall Hnil]|Happ].
  - rewrite Hnil. rewrite lstrip_all_space; [reflexivity|].
    apply Forall_app. split; assumption.
  - rewrite Happ. apply rstrip_pad_right, H2.
Qed.

(** The normal form is blind to case and to padding. *)
Lemma normalise_insensitive (w1 s s' w2 : str) :
  all_space w1 -> all_space w2 -> lower s' = lower s ->
  strip (lower (w1 ++ s' ++ w2)) = strip (lower s).
Proof.
  intros H1 H2 Hcase. unfold lower. rewrite !map_app.
  fold (lower w1) (lower s') (lower w2). rewrite Hcase.
  apply strip_pad; apply lower_all_space; assumption.
Qed.

(** *** get_roughness_by_material *)

Lemma dict_get_Some_In {K V : Type} (key_eqb : K -> K -> bool)
  (d : list (K * V)) (k : K) (v : V) :
  dict_get key_eqb d k = Some v ->
  exists k', In (k', v) d /\ key_eqb k k' = true.
Proof.
  induction d as [|[k' v'] d IH]; simpl; [discriminate|].
  destruct (dict_get key_eqb d k) as [w|] eqn:Hrest.
  - intros [= ->]. destruct (IH eq_refl) as (k0 & Hin & Hk).
    exists k0; auto.
  - destruct (key_eqb k k') eqn:Hk; [|discriminate].
    intros [= ->]. exists k'; auto.
Qed.

Lemma roughness_fallback_present :
  dict_get PyStr.eqb ROUGHNESS (utf8 "acero comercial y soldado")
  = Some 6.0e-5.
Proof. vm_compute. reflexivity. Qed.

Lemma roughness_values_positive :
  Forall (fun e : str * Q => 0 < snd e) ROUGHNESS.
Proof. repeat constructor. Qed.

(** The roughness in metres the lookup settles on. *)
Lemma roughness_metres_positive (k : str) :
  0 < dict_get_default PyStr.eqb ROUGHNESS k 6.0e-5.
Proof.
  unfold dict_get_default.
  destruct (dict_get PyStr.eqb ROUGHNESS k) as [v|] eqn:Hk; [|reflexivity].
  apply dict_get_Some_In in Hk. destruct Hk as (k' & Hin & _).
  pose proof roughness_values_positive as Hpos.
  rewrite Forall_forall in Hpos. apply (Hpos _ Hin).
Qed.

(** X1.  [get_roughness_by_material] never fails (the fallback key is in
    the table) and its answer is strictly positive, for every material
    string and every system. *)
Theorem get_roughness_by_material_positive (material : str) (system : string) :
  exists epsilon : Q,
    get_roughness_by_material material system = Some epsilon /\ 0 < epsilon.
Proof.
  unfold get_roughness_by_material. rewrite roughness_fallback_present.
  pose proof (roughness_metres_positive (strip (lower material))) as Hpos.
  destruct (is_SI system); eexists; (split; [reflexivity|]).
  - exact Hpos.
  - unfold CONVERSION_M_TO_FT.
    apply Qmult_lt_0_compat; [exact Hpos|reflexivity].
Qed.

(** X2.  A material name that, lowercased and stripped, is not a key of
    [ROUGHNESS] gets the roughness of commercial steel: [6.0e-5] for
    ['SI'], and [6.0e-5 * 3.28084] for any other system. *)
Theorem get_roughness_by_material_unknown (material : str) (system : string) :
  dict_get PyStr.eqb ROUGHNESS (strip (lower material)) = None ->
  (system = "SI"%string ->
   get_roughness_by_material material system = Some 6.0e-5) /\
  (system <> "SI"%string ->
   get_roughness_by_material material system = Some (6.0e-5 * 3.28084)).
Proof.
  intros Hmiss. unfold get_roughness_by_material, dict_get_default.
  rewrite roughness_fallback_present, Hmiss.
  split; intros Hs.
  - apply is_SI_true in Hs. rewrite Hs. reflexivity.
  - apply is_SI_false in Hs. rewrite Hs. reflexivity.
Qed.

Lemma get_roughness_by_material_unknown_witness :
  get_roughness_by_material (utf8 "Titanio") "SI" = Some 6.0e-5 /\
  get_roughness_by_material (utf8 "Titanio") "INGLES"
  = Some (6.0e-5 * 3.28084).
Proof.
  split.
  - apply (get_roughness_by_material_unknown (utf8 "Titanio") "SI");
      reflexivity.
  - apply (get_roughness_by_material_unknown (utf8 "Titanio") "INGLES");
      [reflexivity|discriminate].
Defined.

(** X3.  Every entry of [ROUGHNESS] is reachable: a name whose lowercased,
    stripped form is the key of an entry gets that entry's value, in metres
    for ['SI'] and multiplied by [3.28084] otherwise. *)
Theorem get_roughness_by_material_known (material k : str) (v : Q)
  (system : string) :
  In (k, v) ROUGHNESS -> strip (lower material) = k ->
  (system = "SI"%string ->
   get_roughness_by_material material system = Some v) /\
  (system <> "SI"%string ->
   get_roughness_by_material material system = Some (v * 3.28084)).
Proof.
  intros Hin Hk.
  assert (Hget : dict_get PyStr.eqb ROUGHNESS k = Some v).
  { simpl in Hin.
    repeat (destruct Hin as [Hin|Hin];
            [injection Hin as <- <-; vm_compute; reflexivity|]).
    contradiction. }
  unfold get_roughness_by_material, dict_get_default.
  rewrite roughness_fallback_present, Hk, Hget.
  split; intros Hs.
  - apply is_SI_true in Hs. rewrite Hs. reflexivity.
  - apply is_SI_false in Hs. rewrite Hs. reflexivity.
Qed.

Lemma get_roughness_by_material_known_witness :
  get_roughness_by_material (utf8 "  Hierro GALVANIZADO ") "SI"
  = Some 1.5e-4 /\
  get_roughness_by_material (utf8 "HORMIGÓN") "INGLES"
  = Some (1.65e-3 * 3.28084).
Proof.
  split.
  - apply (get_roughness_by_material_known (utf8 "  Hierro GALVANIZADO ")
             (utf8 "hierro galvanizado") 1.5e-4 "SI");
      [simpl; tauto | reflexivity | reflexivity].
  - apply (get_roughness_by_material_known (utf8 "HORMIGÓN")
             (utf8 "hormigón") 1.65e-3 "INGLES");
      [simpl; tauto | reflexivity | discriminate].
Defined.

(** X4.  The answer does not depend on the case of the name nor on white
    space around it. *)
Theorem get_roughness_by_material_insensitive (w1 s s' w2 : str)
  (system : string) :
  all_space w1 -> all_space w2 -> lower s' = lower s ->
  get_roughness_by_material (w1 ++ s' ++ w2) system
  = get_roughness_by_material s system.
Proof.
  intros H1 H2 Hcase. unfold get_roughness_by_material.
  rewrite (normalise_insensitive w1 s s' w2 H1 H2 Hcase). reflexivity.
Qed.

Lemma get_roughness_by_material_insensitive_witness :
  get_roughness_by_material (utf8 "  " ++ utf8 "MADERA" ++ utf8 " ") "SI"
  = get_roughness_by_material (utf8 "Madera") "SI".
Proof.
  apply (get_roughness_by_material_insensitive
           (utf8 "  ") (utf8 "Madera") (utf8 "MADERA") (utf8 " ") "SI").
  - repeat constructor.
  - repeat constructor.
  - reflexivity.
Defined.

(** *** get_pipe_diameter *)

Lemma pipe_schedules_40 :
  Forall (fun e : (Q * Z) * Q => snd (fst e) = 40%Z) PIPE_DIAMETERS_M.
Proof. repeat constructor. Qed.

Lemma pipe_values_positive :
  Forall (fun e : (Q * Z) * Q => 0 < snd e) PIPE_DIAMETERS_M.
Proof. repeat constructor. Qed.

Lemma pipe_other_schedule_absent (nominal : Q) (schedule : Z) :
  schedule <> 40%Z ->
  dict_get pipe_key_eqb PIPE_DIAMETERS_M (nominal, schedule) = None.
Proof.
  intros Hs. apply dict_get_None.
  eapply Forall_impl; [|exact pipe_schedules_40].
  intros [[n sch] d] H40. simpl in *. subst sch.
  unfold pipe_key_eqb. simpl.
  apply andb_false_iff. right. apply Z.eqb_neq. exact Hs.
Qed.

(** X5.  The table holds schedule 40 only: for any other schedule the
    answer is, as a number, the nominal value itself, whatever the nominal
    size and the system. *)
Theorem get_pipe_diameter_other_schedule (nominal : Q) (schedule : Z)
  (system : string) :
  schedule <> 40%Z -> get_pipe_diameter nominal schedule system == nominal.
Proof.
  intros Hs. apply get_pipe_diameter_miss_value.
  apply pipe_other_schedule_absent, Hs.
Qed.

Lemma get_pipe_diameter_other_schedule_witness :
  get_pipe_diameter 2 80 "SI" == 2 /\ get_pipe_diameter 2 80 "INGLES" == 2.
Proof.
  split.
  - apply (get_pipe_diameter_other_schedule 2 80 "SI"). discriminate.
  - apply (get_pipe_diameter_other_schedule 2 80 "INGLES"). discriminate.
Defined.

(** X6.  A positive nominal size gets a positive diameter, on and off the
    table, in every system. *)
Theorem get_pipe_diameter_positive (nominal : Q) (schedule : Z)
  (system : string) :
  0 < nominal -> 0 < get_pipe_diameter nominal schedule system.
Proof.
  intros Hpos.
  destruct (dict_get pipe_key_eqb PIPE_DIAMETERS_M (nominal, schedule))
    as [d|] eqn:Hget.
  - assert (Hd : 0 < d).
    { apply dict_get_Some_In in Hget. destruct Hget as (k' & Hin & _).
      pose proof pipe_values_positive as Hall.
      rewrite Forall_forall in Hall. apply (Hall _ Hin). }
    unfold get_pipe_diameter. rewrite Hget.
    destruct (is_SI system); [exact Hd|].
    apply Qmult_lt_0_compat; [exact Hd|reflexivity].
  - rewrite (get_pipe_diameter_miss_value _ _ _ Hget). exact Hpos.
Qed.

Lemma get_pipe_diameter_positive_witness :
  0 < get_pipe_diameter 0.06 40 "INGLES" /\ 0 < get_pipe_diameter 4 40 "SI".
Proof.
  split.
  - apply (get_pipe_diameter_positive 0.06 40 "INGLES"). reflexivity.
  - apply (get_pipe_diameter_positive 4 40 "SI"). reflexivity.
Defined.

(** X7.  How the two unit systems relate.  On a table hit the answer for a
    system other than ['SI'] is the ['SI'] answer multiplied by [3.28084];
    on a miss both systems give the same number. *)
Theorem get_pipe_diameter_systems (nominal : Q) (schedule : Z)
  (system : string) :
  system <> "SI"%string ->
  (forall d : Q,
     dict_get pipe_key_eqb PIPE_DIAMETERS_M (nominal, schedule) = Some d ->
     get_pipe_diameter nominal schedule system
     == get_pipe_diameter nominal schedule "SI" * 3.28084) /\
  (dict_get pipe_key_eqb PIPE_DIAMETERS_M (nominal, schedule) = None ->
   get_pipe_diameter nominal schedule system
   == get_pipe_diameter nominal schedule "SI").
Proof.
  intros Hs. apply is_SI_false in Hs. split.
  - intros d Hget. unfold get_pipe_diameter. rewrite Hget, Hs. simpl.
    reflexivity.
  - intros Hmiss.
    rewrite !(get_pipe_diameter_miss_value _ _ _ Hmiss). reflexivity.
Qed.

Lemma get_pipe_diameter_systems_witness :
  get_pipe_diameter 4 40 "INGLES" == get_pipe_diameter 4 40 "SI" * 3.28084 /\
  get_pipe_diameter 0.06 40 "INGLES" == get_pipe_diameter 0.06 40 "SI".
Proof.
  split.
  - apply (proj1 (get_pipe_diameter_systems 4 40 "INGLES" ltac:(discriminate))
             0.1023).
    reflexivity.
  - apply (proj2 (get_pipe_diameter_systems 0.06 40 "INGLES"
                    ltac:(discriminate))).
    reflexivity.
Defined.

End DataTablesMore.

(** ** More on the numerical engine *)

Module FluidMechanicsMore.
Import Py FluidMechanics FluidMechanicsSpec.
Local Open Scope R_scope.
Local Open Scope py_scope.

(** *** kinematic_viscosity and reynolds_number *)

(** X9.  [kinematic_viscosity] raises exactly when [rho <= 0]; for a
    positive density it returns, without a warning, the [nu] with
    [nu * rho = mu]. *)
Theorem kinematic_viscosity_spec (mu rho : R) :
  (raises (kinematic_viscosity mu rho) <-> rho <= 0) /\
  (0 < rho ->
   exists nu, kinematic_viscosity mu rho = ret nu /\ nu * rho = mu).
Proof.
  unfold kinematic_viscosity, raises.
  destruct (Rle_dec rho 0) as [Hle|Hgt]; split.
  - split; [intros _; exact Hle|]. intros _. eexists. reflexivity.
  - intros; lra.
  - split; [intros [e He]; discriminate|intros; lra].
  - intros Hpos. exists (mu / rho). split; [reflexivity|]. field. lra.
Qed.

Lemma kinematic_viscosity_spec_witness :
  exists nu, kinematic_viscosity 0.001 998 = ret nu /\ nu * 998 = 0.001.
Proof. apply (proj2 (kinematic_viscosity_spec 0.001 998)). lra. Defined.

(** X10.  The Reynolds number is never negative, and it is positive exactly
    when the velocity, the diameter and the viscosity all are; any other
    input gives [0]. *)
Theorem reynolds_number_sign (V D nu : R) :
  0 <= reynolds_number V D nu /\
  (0 < reynolds_number V D nu <-> 0 < V /\ 0 < D /\ 0 < nu) /\
  (V <= 0 \/ D <= 0 \/ nu <= 0 -> reynolds_number V D nu = 0).
Proof.
  unfold reynolds_number.
  destruct (Rle_dec V 0);
    [split; [lra|split; [split; intros; lra|reflexivity]]|].
  destruct (Rle_dec D 0);
    [split; [lra|split; [split; intros; lra|reflexivity]]|].
  destruct (Rle_dec nu 0);
    [split; [lra|split; [split; intros; lra|reflexivity]]|].
  assert (Hpos : 0 < V * D / nu).
  { apply Rdiv_lt_0_compat; [apply Rmult_lt_0_compat|]; lra. }
  split; [lra|]. split; [split; intros; lra|].
  intros [?|[?|?]]; lra.
Qed.

Lemma reynolds_number_sign_witness : reynolds_number 2 0.1 0 = 0.
Proof. apply (reynolds_number_sign 2 0.1 0). lra. Defined.

(** *** The Colebrook-White residual *)

(** X11.  For [Re > 0] and a relative roughness [>= 0], the residual is
    strictly decreasing in [f] over [f > 0]: the equation has at most one
    positive root. *)
Theorem colebrook_equation_decreasing (Re epsilon_D f1 f2 : R) :
  0 < Re -> 0 <= epsilon_D -> 0 < f1 -> f1 < f2 ->
  colebrook_equation Re epsilon_D f2 < colebrook_equation Re epsilon_D f1.
Proof.
  intros HRe Heps Hf1 Hf12. unfold colebrook_equation.
  destruct (Rle_dec f1 0); [lra|]. destruct (Rle_dec f2 0); [lra|].
  assert (Hs1 : 0 < sqrt f1) by (apply sqrt_lt_R0; lra).
  assert (Hs12 : sqrt f1 < sqrt f2) by (apply sqrt_lt_1; lra).
  assert (Hinv : 1 / sqrt f2 < 1 / sqrt f1).
  { unfold Rdiv. rewrite !Rmult_1_l.
    apply Rinv_lt_contravar; [apply Rmult_lt_0_compat; lra|exact Hs12]. }
  assert (Hq : 0 < 2.51 / (Re * sqrt f2) < 2.51 / (Re * sqrt f1)).
  { assert (0 < Re * sqrt f1) by (apply Rmult_lt_0_compat; lra).
    assert (Re * sqrt f1 < Re * sqrt f2)
      by (apply Rmult_lt_compat_l; lra).
    split.
    - apply Rdiv_lt_0_compat; lra.
    - unfold Rdiv. apply Rmult_lt_compat_l; [lra|].
      apply Rinv_lt_contravar; [apply Rmult_lt_0_compat; lra|assumption]. }
  assert (Hln : ln (epsilon_D / 3.7 + 2.51 / (Re * sqrt f2))
                < ln (epsilon_D / 3.7 + 2.51 / (Re * sqrt f1))).
  { apply ln_increasing; lra. }
  assert (Hlog : log10 (epsilon_D / 3.7 + 2.51 / (Re * sqrt f2))
                 < log10 (epsilon_D / 3.7 + 2.51 / (Re * sqrt f1))).
  { unfold log10, Rdiv. apply Rmult_lt_compat_r; [|exact Hln].
    apply Rinv_0_lt_compat, ln_10_pos. }
  lra.
Qed.

Lemma colebrook_equation_decreasing_witness :
  colebrook_equation 100000 0.00045 0.03
  < colebrook_equation 100000 0.00045 0.01.
Proof.
  apply (colebrook_equation_decreasing 100000 0.00045 0.01 0.03); lra.
Defined.

(** *** total_head_loss *)

Lemma total_head_loss_ge_0 (f L D V sum_K g : R) :
  0 <= f -> 0 <= L -> 0 <= sum_K -> 0 <= total_head_loss f L D V sum_K g.
Proof.
  intros Hf HL HK. unfold total_head_loss.
  destruct (Rle_dec D 0) as [HD|HD]; [lra|].
  destruct (Rle_dec g 0) as [Hg|Hg]; [lra|].
  assert (Hvh : 0 <= V ^ 2 / (2 * g)).
  { apply Rmult_le_pos; [apply pow2_ge_0|].
    left. apply Rinv_0_lt_compat. lra. }
  assert (HLD : 0 <= L / D).
  { apply Rmult_le_pos; [lra|]. left. apply Rinv_0_lt_compat. lra. }
  assert (0 <= f * (L / D)) by (apply Rmult_le_pos; assumption).
  assert (0 <= f * (L / D) * (V ^ 2 / (2 * g)))
    by (apply Rmult_le_pos; assumption).
  assert (0 <= sum_K * (V ^ 2 / (2 * g)))
    by (apply Rmult_le_pos; assumption).
  lra.
Qed.

(** X15.  The head loss is [0] for [D <= 0] or [g <= 0], and it is never
    negative when [f], [L] and [sum_K] are not. *)
Theorem total_head_loss_nonneg (f L D V sum_K g : R) :
  (D <= 0 \/ g <= 0 -> total_head_loss f L D V sum_K g = 0) /\
  (0 <= f -> 0 <= L -> 0 <= sum_K -> 0 <= total_head_loss f L D V sum_K g).
Proof.
  split; [|apply total_head_loss_ge_0].
  unfold total_head_loss.
  destruct (Rle_dec D 0); [reflexivity|].
  destruct (Rle_dec g 0); [reflexivity|].
  intros [?|?]; lra.
Qed.

Lemma total_head_loss_nonneg_witness :
  total_head_loss 0.02 100 0 2 1.5 9.81 = 0 /\
  0 <= total_head_loss 0.02 100 0.1 2 1.5 9.81.
Proof.
  split.
  - apply (proj1 (total_head_loss_nonneg 0.02 100 0 2 1.5 9.81)). lra.
  - apply (proj2 (total_head_loss_nonneg 0.02 100 0.1 2 1.5 9.81)); lra.
Defined.

(** X16.  With the friction factor held fixed the head loss is quadratic in
    the velocity, for every input: scaling [V] by [k] scales the loss by
    [k^2]; in particular the sign of [V] does not matter. *)
Theorem total_head_loss_quadratic (f L D V sum_K g k : R) :
  total_head_loss f L D (k * V) sum_K g
  = k ^ 2 * total_head_loss f L D V sum_K g /\
  total_head_loss f L D (- V) sum_K g = total_head_loss f L D V sum_K g.
Proof.
  unfold total_head_loss.
  destruct (Rle_dec D 0); [split; ring|].
  destruct (Rle_dec g 0); [split; ring|].
  split; field; lra.
Qed.

(** *** pumping_power *)

(** X17.  For a positive efficiency the power in a system other than
    ['SI'] is the ['SI'] figure divided by [550]; and with an efficiency of
    at most [1] and [Q * delta_P >= 0] the ['SI'] power is at least
    [Q * delta_P]. *)
Theorem pumping_power_systems (Q delta_P : R) (system : string)
  (efficiency : R) :
  0 < efficiency -> system <> "SI"%string ->
  exists p_si p,
    pumping_power Q delta_P "SI" efficiency = ret p_si /\
    pumping_power Q delta_P system efficiency = ret p /\
    p = p_si / 550 /\
    (efficiency <= 1 -> 0 <= Q * delta_P -> Q * delta_P <= p_si).
Proof.
  intros Heff Hs. apply String.eqb_neq in Hs.
  unfold pumping_power, is_SI. rewrite Hs. simpl.
  destruct (Rle_dec efficiency 0); [lra|].
  eexists _, _. split; [reflexivity|]. split; [reflexivity|].
  split; [field; lra|].
  intros Hle Hpos.
  apply Rmult_le_reg_r with efficiency; [exact Heff|].
  replace (Q * delta_P / efficiency * efficiency) with (Q * delta_P)
    by (field; lra).
  nra.
Qed.

Lemma pumping_power_systems_witness :
  exists p_si p,
    pumping_power 0.01 5000 "SI" 0.5 = ret p_si /\
    pumping_power 0.01 5000 "INGLES" 0.5 = ret p /\
    p = p_si / 550 /\
    (0.5 <= 1 -> 0 <= 0.01 * 5000 -> 0.01 * 5000 <= p_si).
Proof.
  apply (pumping_power_systems 0.01 5000 "INGLES" 0.5); [lra|discriminate].
Defined.

(** *** The fallback chain of colebrook_white_friction_factor *)

Lemma accepted_reported (m : M RootResults) (v : R) (w : list string) :
  bind m (fun sol => ret (accepted sol)) = (Ok (Some v), w) -> reported m v.
Proof.
  intros H. apply bind_Ok_inv in H.
  destruct H as (sol & w1 & w2 & Hm & Hret & _).
  injection Hret as Hacc _. unfold accepted in Hacc.
  destruct (converged sol) eqn:Hc; [|discriminate].
  destruct (Rlt_dec 0 (root sol)) as [Hpos|]; [|discriminate].
  injection Hacc as <-. exists sol, w1. auto.
Qed.

Lemma reported_positive (m : M RootResults) (v : R) : reported m v -> 0 < v.
Proof. intros (sol & w & _ & _ & _ & H). exact H. Qed.

Lemma swamee_jain_positive (Re epsilon_D : R) :
  2000 <= Re -> 0 <= epsilon_D <= 0.5 -> 0 < swamee_jain Re epsilon_D.
Proof.
  intros HRe [Hlo Hhi]. unfold swamee_jain.
  pose proof (Rpower_09_lower Re HRe) as Hp.
  set (p := Rpower Re 0.9) in *.
  assert (Hq : 0 < 5.74 / p < 0.83).
  { split.
    - apply Rdiv_lt_0_compat; lra.
    - apply Rmult_lt_reg_r with p; [lra|].
      replace (5.74 / p * p) with 5.74 by (field; lra). nra. }
  set (a := epsilon_D / 3.7 + 5.74 / p).
  assert (Ha : 0 < a < 1) by (unfold a; lra).
  assert (Hl : log10 a < 0).
  { unfold log10, Rdiv.
    assert (ln a < 0) by (rewrite <- ln_1; apply ln_increasing; lra).
    pose proof ln_10_pos.
    assert (0 < / ln 10) by (apply Rinv_0_lt_compat; assumption).
    nra. }
  apply Rdiv_lt_0_compat; [lra|]. nra.
Qed.

Section ChainFacts.
Variable root_scalar : (R -> M R) -> method -> nat -> M RootResults.

(** A case rule for the friction factor: what holds of [0], of [64 / Re],
    of every positive root and of the explicit estimate holds of what the
    function returns. *)
Lemma colebrook_cases (P : R -> Prop) (Re epsilon_D : R) :
  (Re <= 0 -> P 0) ->
  (0 < Re < 2000 -> P (64 / Re)) ->
  (2000 <= Re ->
   (forall v, 0 < v -> P v) /\ P (swamee_jain Re epsilon_D)) ->
  returns (fun f _ => P f)
    (colebrook_white_friction_factor root_scalar Re epsilon_D).
Proof.
  intros Hzero Hlam Hturb. unfold colebrook_white_friction_factor.
  destruct (Rle_dec Re 0) as [Hle|Hgt].
  { eapply returns_bind; [apply returns_warn|].
    intros; apply returns_ret; auto. }
  destruct (Rlt_dec Re 2000) as [Hlt|Hge].
  { apply returns_ret, Hlam. lra. }
  destruct Hturb as [Hroot Hguess]; [lra|].
  eapply returns_bind with (Q := fun fg _ => fg = swamee_jain Re epsilon_D).
  { eexists _, _. split; reflexivity. }
  intros f_guess w0 ->.
  eapply returns_bind.
  { apply (returns_stage (fun v => 0 < v)). intros v w H.
    destruct (Req_dec_T _ _); [discriminate|].
    eapply accepting_positive, H. }
  intros [f|] w1 H1; [apply returns_ret; auto|].
  eapply returns_bind.
  { apply (returns_stage (fun v => 0 < v)). intros v w H.
    destruct (secant_seeds _) as [x0 x1].
    eapply accepting_positive, H. }
  intros [f|] w2 H2; [apply returns_ret; auto|].
  eapply returns_bind.
  { apply (returns_stage (fun v => 0 < v)). intros v w H.
    eapply accepting_positive, H. }
  intros [f|] w3 H3; [apply returns_ret; auto|].
  eapply returns_bind; [apply returns_warn|].
  intros; apply returns_ret; exact Hguess.
Qed.

(** X12.  For a relative roughness in [[0, 0.5]] the function returns
    (it never raises) a friction factor that is strictly positive when
    [Re > 0] and is [0] when [Re <= 0], whatever the root finder does. *)
Theorem colebrook_positive (Re epsilon_D : R) :
  0 <= epsilon_D <= 0.5 ->
  returns (fun f _ => (0 < Re -> 0 < f) /\ (Re <= 0 -> f = 0))
    (colebrook_white_friction_factor root_scalar Re epsilon_D).
Proof.
  intros Heps. apply colebrook_cases.
  - intros Hle. split; [lra|reflexivity].
  - intros [Hpos Hlam]. split; [|lra].
    intros _. apply Rdiv_lt_0_compat; lra.
  - intros HRe. split.
    + intros v Hv. split; [auto|lra].
    + split; [|lra]. intros _. apply swamee_jain_positive; assumption.
Qed.

(** X13.  In the turbulent branch the value returned is a root that one of
    the three calls of the root finder reported as converged and positive
    (the bracket search on [[1e-6, 0.1]], the secant search from the two
    seeds, the Newton search from the explicit estimate), or else it is the
    explicit estimate itself and the last warning says so. *)
Theorem colebrook_turbulent_origin (Re epsilon_D : R) :
  2000 <= Re ->
  let equation := fun f => ret (colebrook_equation Re epsilon_D f) in
  let f0 := swamee_jain Re epsilon_D in
  returns
    (fun f w =>
       reported (root_scalar equation (brentq 1e-6 0.1) 200) f \/
       reported (root_scalar equation
                   (secant (fst (secant_seeds f0)) (snd (secant_seeds f0)))
                   200) f \/
       reported (root_scalar equation (newton f0) 200) f \/
       (f = f0 /\
        exists w0,
          w = w0 ++ ["Colebrook no convergió; usando aproximación explícita f_guess."%string]))
    (colebrook_white_friction_factor root_scalar Re epsilon_D).
Proof.
  intros HRe equation f0. subst equation f0.
  unfold colebrook_white_friction_factor.
  destruct (Rle_dec Re 0); [lra|]. destruct (Rlt_dec Re 2000); [lra|].
  eapply returns_bind with (Q := fun fg _ => fg = swamee_jain Re epsilon_D).
  { eexists _, _. split; reflexivity. }
  intros f_guess w0 ->.
  eapply returns_bind.
  { eapply returns_stage. intros v w H.
    destruct (Req_dec_T _ _); [discriminate|].
    eapply accepted_reported, H. }
  intros [f|] w1 H1; [apply returns_ret; left; apply H1; reflexivity|].
  eapply returns_bind.
  { eapply returns_stage. intros v w H.
    rewrite (surjective_pairing (secant_seeds _)) in H.
    eapply accepted_reported, H. }
  intros [f|] w2 H2;
    [apply returns_ret; right; left; apply H2; reflexivity|].
  eapply returns_bind.
  { eapply returns_stage. intros v w H. eapply accepted_reported, H. }
  intros [f|] w3 H3;
    [apply returns_ret; right; right; left; apply H3; reflexivity|].
  eapply returns_bind; [apply returns_warn|].
  intros [] w4 ->. apply returns_ret. right; right; right.
  split; [reflexivity|].
  exists (w0 ++ w1 ++ w2 ++ w3). rewrite app_nil_r, <- !app_assoc. reflexivity.
Qed.

(** X14.  When the root finder never reports a converged positive root,
    the turbulent branch returns the explicit estimate, and the last warning
    is the one about non-convergence. *)
Theorem colebrook_terminal_fallback (Re epsilon_D : R) :
  (forall f m n sol w,
     root_scalar f m n = (Ok sol, w) -> accepted sol = None) ->
  2000 <= Re ->
  returns
    (fun f w =>
       f = swamee_jain Re epsilon_D /\
       exists w0,
         w = w0 ++ ["Colebrook no convergió; usando aproximación explícita f_guess."%string])
    (colebrook_white_friction_factor root_scalar Re epsilon_D).
Proof.
  intros Hfail HRe.
  assert (Hstage : forall m v w,
            bind (root_scalar (fun f => ret (colebrook_equation Re epsilon_D f))
                    m 200)
                 (fun sol => ret (accepted sol)) = (Ok (Some v), w) -> False).
  { intros m v w H. apply bind_Ok_inv in H.
    destruct H as (sol & w1 & w2 & Hm & Hret & _).
    apply Hfail in Hm. rewrite Hm in Hret. discriminate. }
  unfold colebrook_white_friction_factor.
  destruct (Rle_dec Re 0); [lra|]. destruct (Rlt_dec Re 2000); [lra|].
  eapply returns_bind with (Q := fun fg _ => fg = swamee_jain Re epsilon_D).
  { eexists _, _. split; reflexivity. }
  intros f_guess w0 ->.
  eapply returns_bind.
  { apply (returns_stage (fun _ => False)). intros v w H.
    destruct (Req_dec_T _ _); [discriminate|]. eapply Hstage, H. }
  intros [f|] w1 H1; [destruct (H1 f eq_refl)|].
  eapply returns_bind.
  { apply (returns_stage (fun _ => False)). intros v w H.
    rewrite (surjective_pairing (secant_seeds _)) in H. eapply Hstage, H. }
  intros [f|] w2 H2; [destruct (H2 f eq_refl)|].
  eapply returns_bind.
  { apply (returns_stage (fun _ => False)). intros v w H. eapply Hstage, H. }
  intros [f|] w3 H3; [destruct (H3 f eq_refl)|].
  eapply returns_bind; [apply returns_warn|].
  intros [] w4 ->. apply returns_ret. split; [reflexivity|].
  exists (w0 ++ w1 ++ w2 ++ w3). rewrite app_nil_r, <- !app_assoc. reflexivity.
Qed.

End ChainFacts.

Lemma no_convergence_never_accepted (f : R -> M R) (m : method) (n : nat)
  (sol : RootResults) (w : list string) :
  no_convergence f m n = (Ok sol, w) -> accepted sol = None.
Proof. unfold no_convergence, ret. intros [= <- _]. reflexivity. Qed.

Lemma colebrook_positive_witness :
  returns (fun f _ => (0 < 100000 -> 0 < f) /\ (100000 <= 0 -> f = 0))
    (colebrook_white_friction_factor no_convergence 100000 0.00045).
Proof. apply (colebrook_positive no_convergence 100000 0.00045). lra. Defined.

Lemma colebrook_terminal_fallback_witness :
  returns
    (fun f w =>
       f = swamee_jain 100000 0.00045 /\
       exists w0,
         w = w0 ++ ["Colebrook no convergió; usando aproximación explícita f_guess."%string])
    (colebrook_white_friction_factor no_convergence 100000 0.00045).
Proof.
  apply (colebrook_terminal_fallback no_convergence 100000 0.00045).
  - exact no_convergence_never_accepted.
  - lra.
Defined.

Lemma colebrook_turbulent_origin_witness :
  exists f w,
    colebrook_white_friction_factor no_convergence 100000 0.00045 = (Ok f, w).
Proof.
  destruct (colebrook_turbulent_origin no_convergence 100000 0.00045
              ltac:(lra)) as (f & w & H & _).
  exists f, w. exact H.
Defined.

(** *** energy_equation_for_V *)

Section EnergyFacts.
Variable root_scalar : (R -> M R) -> method -> nat -> M RootResults.


(** *** solve_velocity *)



End EnergyFacts.



(** *** generate_hl_vs_v_data *)

Lemma filter_all {A} (p : A -> bool) (l : list A) :
  Forall (fun x => p x = true) l -> filter p l = l.
Proof.
  induction 1 as [|x l Hx _ IH]; simpl; [reflexivity|].
  rewrite Hx, IH. reflexivity.
Qed.

Lemma linspace_lower_bound (start stop : R) (num : nat) (x : R) :
  start <= stop -> In x (linspace start stop num) -> start <= x.
Proof.
  intros Hle Hin. rewrite linspace_unfold in Hin.
  apply in_map_iff in Hin. destruct Hin as (i & <- & _).
  pose proof (linspace_step_nonneg start stop num Hle).
  pose proof (pos_INR i). nra.
Qed.

Lemma linspace_all_positive (start stop : R) (num : nat) :
  0 < start -> start <= stop ->
  filter positive (linspace start stop num) = linspace start stop num.
Proof.
  intros Hpos Hle. apply filter_all, Forall_forall. intros x Hx.
  apply (linspace_lower_bound _ _ _ _ Hle) in Hx.
  unfold positive. destruct (Rle_dec x 0); [lra|reflexivity].
Qed.

Section SamplingFacts.
Variable root_scalar : (R -> M R) -> method -> nat -> M RootResults.

Lemma generate_value (V_min V_max : R) (steps : Z)
  (L D nu sum_K g material_epsilon : R) :
  (1 <= steps)%Z ->
  value (generate_hl_vs_v_data root_scalar V_min V_max steps L D nu sum_K g
           material_epsilon)
  = Ok (map (fun V =>
               (V, head_loss_at root_scalar L D nu sum_K g material_epsilon V))
            (filter positive (linspace V_min V_max (Z.to_nat steps)))).
Proof.
  intros Hs. unfold generate_hl_vs_v_data.
  destruct (steps <=? 0)%Z eqn:E; [apply Z.leb_le in E; lia|].
  apply hl_samples_value.
Qed.

(** X22.  Over a range that starts above zero ([0 < V_min <= V_max]) no
    sample is skipped: for [steps >= 1] exactly [steps] pairs are returned,
    their velocities are the partition itself, from [V_min] on. *)
Theorem generate_hl_vs_v_data_full (V_min V_max : R) (steps : Z)
  (L D nu sum_K g material_epsilon : R) :
  0 < V_min -> V_min <= V_max -> (1 <= steps)%Z ->
  exists data,
    value (generate_hl_vs_v_data root_scalar V_min V_max steps L D nu sum_K g
             material_epsilon) = Ok data /\
    List.length data = Z.to_nat steps /\
    map fst data = linspace V_min V_max (Z.to_nat steps) /\
    nth 0 (map fst data) 0 = V_min.
Proof.
  intros Hpos Hle Hs. eexists. split; [apply generate_value, Hs|].
  rewrite linspace_all_positive by assumption.
  rewrite length_map, linspace_length, map_map. simpl. rewrite map_id.
  split; [reflexivity|]. split; [reflexivity|].
  rewrite linspace_nth by lia. simpl. ring.
Qed.

Lemma colebrook_value_nonneg (Re epsilon_D : R) :
  0 <= epsilon_D <= 0.5 ->
  exists f, value (colebrook_white_friction_factor root_scalar Re epsilon_D)
            = Ok f /\ 0 <= f.
Proof.
  intros Heps.
  destruct (colebrook_cases root_scalar (fun f => 0 <= f) Re epsilon_D)
    as (f & w & Hf & Hnn).
  - intros; lra.
  - intros [Hpos _]. left. apply Rdiv_lt_0_compat; lra.
  - intros HRe. split; [intros; lra|].
    left. apply swamee_jain_positive; assumption.
  - exists f. rewrite Hf. auto.
Qed.

(** X23.  For a pipe with [D > 0], a roughness between [0] and [D / 2],
    and [L >= 0], [sum_K >= 0], every pair returned has a positive velocity
    and a head loss that is not negative, whatever the root finder does. *)
Theorem generate_hl_vs_v_data_nonneg (V_min V_max : R) (steps : Z)
  (L D nu sum_K g material_epsilon : R) :
  (1 <= steps)%Z -> 0 < D -> 0 <= material_epsilon <= 0.5 * D ->
  0 <= L -> 0 <= sum_K ->
  exists data,
    value (generate_hl_vs_v_data root_scalar V_min V_max steps L D nu sum_K g
             material_epsilon) = Ok data /\
    Forall (fun sample => 0 < fst sample /\ 0 <= snd sample) data.
Proof.
  intros Hs HD [He0 He1] HL HK. eexists. split; [apply generate_value, Hs|].
  apply Forall_forall. intros [V hL] Hin.
  apply in_map_iff in Hin. destruct Hin as (V' & [= <- <-] & Hin).
  apply filter_In in Hin. destruct Hin as [_ HV]. simpl. split.
  - unfold positive in HV. destruct (Rle_dec V' 0); [discriminate|lra].
  - unfold head_loss_at.
    destruct (Req_dec_T D 0); [lra|].
    destruct (colebrook_value_nonneg (reynolds_number V' D nu)
                (material_epsilon / D)) as (f & -> & Hf).
    + split.
      * apply Rmult_le_pos; [lra|]. left. apply Rinv_0_lt_compat, HD.
      * apply Rmult_le_reg_r with D; [exact HD|].
        replace (material_epsilon / D * D) with material_epsilon
          by (field; lra).
        lra.
    + apply total_head_loss_ge_0; assumption.
Qed.

End SamplingFacts.

Lemma generate_hl_vs_v_data_full_witness :
  exists data,
    value (generate_hl_vs_v_data no_convergence 0.5 5 20 100 0.1 1e-6 0 9.81
             4.5e-5) = Ok data /\
    List.length data = Z.to_nat 20 /\
    map fst data = linspace 0.5 5 (Z.to_nat 20) /\
    nth 0 (map fst data) 0 = 0.5.
Proof.
  apply (generate_hl_vs_v_data_full no_convergence); [lra|lra|lia].
Defined.

Lemma generate_hl_vs_v_data_nonneg_witness :
  exists data,
    value (generate_hl_vs_v_data no_convergence 0.5 5 20 100 0.1 1e-6 0 9.81
             4.5e-5) = Ok data /\
    Forall (fun sample => 0 < fst sample /\ 0 <= snd sample) data.
Proof.
  apply (generate_hl_vs_v_data_nonneg no_convergence); [lia|lra|lra|lra|lra].
Defined.

End FluidMechanicsMore.

(** ** What the functions raise, with the range of floats *)

Module FloatRangeSpec.
Import Py FluidMechanics FluidMechanicsSpec FluidMechanicsMore.
Import FloatRange.
Local Open Scope R_scope.
Local Open Scope py_scope.

(** *** The two thresholds *)

Lemma FLOAT_UNDERFLOW_pos : 0 < FLOAT_UNDERFLOW.
Proof. unfold FLOAT_UNDERFLOW. apply Rinv_0_lt_compat, pow_lt. lra. Qed.

Lemma FLOAT_UNDERFLOW_lt_1 : FLOAT_UNDERFLOW < 1e-300.
Proof. unfold FLOAT_UNDERFLOW. lra. Qed.

Lemma FLOAT_OVERFLOW_gt_1 : 1e300 < FLOAT_OVERFLOW.
Proof. unfold FLOAT_OVERFLOW. lra. Qed.

Lemma FLOAT_OVERFLOW_lt : FLOAT_OVERFLOW < 1e309.
Proof. unfold FLOAT_OVERFLOW. lra. Qed.

(** A square in the ordinary range is what [float_square] returns. *)
Lemma float_square_ordinary (x : R) :
  1e-300 <= x ^ 2 <= 1e300 -> float_square x = ret (x ^ 2).
Proof.
  intros [Hlo Hhi]. unfold float_square.
  pose proof FLOAT_UNDERFLOW_lt_1. pose proof FLOAT_OVERFLOW_gt_1.
  destruct (Rle_dec FLOAT_OVERFLOW (x ^ 2)); [lra|].
  destruct (Rle_dec (x ^ 2) FLOAT_UNDERFLOW); [lra|]. reflexivity.
Qed.

Lemma float_square_cases (x : R) :
  (FLOAT_OVERFLOW <= x ^ 2 /\ float_square x = raise OverflowError) \/
  (x ^ 2 < FLOAT_OVERFLOW /\
   exists x2, float_square x = ret x2 /\ 0 <= x2 /\
              (FLOAT_UNDERFLOW < x ^ 2 -> x2 = x ^ 2) /\
              (x ^ 2 <= FLOAT_UNDERFLOW -> x2 = 0)).
Proof.
  unfold float_square.
  destruct (Rle_dec FLOAT_OVERFLOW (x ^ 2)) as [Hov|Hov]; [left; auto|].
  right. split; [lra|].
  destruct (Rle_dec (x ^ 2) FLOAT_UNDERFLOW) as [Hun|Hun].
  - exists 0. repeat split; [lra|intros; lra].
  - exists (x ^ 2). pose proof (pow2_ge_0 x).
    repeat split; [assumption|intros; lra].
Qed.

Lemma float_mul_zero (x y : R) :
  float_mul x y = 0 <-> Rabs (x * y) <= FLOAT_UNDERFLOW.
Proof.
  unfold float_mul. pose proof FLOAT_UNDERFLOW_pos.
  destruct (Rle_dec (Rabs (x * y)) FLOAT_UNDERFLOW) as [Hle|Hgt].
  - tauto.
  - split; [|contradiction]. intros Hz. rewrite Hz, Rabs_R0 in Hgt. lra.
Qed.

Lemma bind_ret {A B} (a : A) (k : A -> M B) : bind (ret a) k = k a.
Proof. unfold bind, ret. destruct (k a). reflexivity. Qed.

Lemma bind_raise {A B} (e : exn) (k : A -> M B) :
  bind (raise e) k = raise e.
Proof. reflexivity. Qed.

(** *** total_head_loss and energy_equation_for_V *)

Lemma total_head_loss_cases (f L D V sum_K g : R) :
  (0 < D /\ 0 < g /\ FLOAT_OVERFLOW <= V ^ 2 /\
   FloatRange.total_head_loss f L D V sum_K g = raise OverflowError) \/
  (~ (0 < D /\ 0 < g /\ FLOAT_OVERFLOW <= V ^ 2) /\
   exists hL, FloatRange.total_head_loss f L D V sum_K g = ret hL).
Proof.
  unfold FloatRange.total_head_loss.
  destruct (Rle_dec D 0); [right; split; [lra|eexists; reflexivity]|].
  destruct (Rle_dec g 0); [right; split; [lra|eexists; reflexivity]|].
  destruct (float_square_cases V) as [[Hov ->]|[Hin (V2 & -> & _)]].
  - left. repeat split; try lra. 
  - right. split; [lra|]. rewrite bind_ret. eexists. reflexivity.
Qed.

Lemma pydiv_cases (a rho g : R) :
  (Rabs (rho * g) <= FLOAT_UNDERFLOW /\
   pydiv a (float_mul rho g) = raise ZeroDivisionError) \/
  (FLOAT_UNDERFLOW < Rabs (rho * g) /\
   pydiv a (float_mul rho g) = ret (a / (rho * g))).
Proof.
  unfold pydiv.
  destruct (Req_dec_T (float_mul rho g) 0) as [Hz|Hnz].
  - left. split; [apply float_mul_zero, Hz|reflexivity].
  - right. assert (Hgt : ~ Rabs (rho * g) <= FLOAT_UNDERFLOW).
    { intros H. apply Hnz, float_mul_zero, H. }
    split; [lra|]. unfold float_mul.
    destruct (Rle_dec (Rabs (rho * g)) FLOAT_UNDERFLOW); [contradiction|].
    reflexivity.
Qed.

Section RaiseFacts.
Variable root_scalar : (R -> M R) -> method -> nat -> M RootResults.

(** X18.  With the range of floats, the energy balance raises in two
    cases only, both with [V > 0] and [D <> 0]: [OverflowError] when
    [total_head_loss] squares a [V] whose square is out of range (which it
    does for [D > 0] and [g > 0]), and otherwise [ZeroDivisionError] when
    the product [rho * g] is zero as a float.  For [V <= 0] or [D = 0] it
    answers the sentinel [1e10], with no warning. *)
Theorem energy_equation_for_V_raise_set
  (V P1 P2 z1 z2 L D rho nu sum_K g : R) (material_epsilon : option R) :
  let run := FloatRange.energy_equation_for_V root_scalar V P1 P2 z1 z2 L D
               rho nu sum_K g material_epsilon in
  let overflows := 0 < D /\ 0 < g /\ FLOAT_OVERFLOW <= V ^ 2 in
  (raises run <->
   0 < V /\ D <> 0 /\ (overflows \/ Rabs (rho * g) <= FLOAT_UNDERFLOW)) /\
  (0 < V -> overflows -> value run = Raise OverflowError) /\
  (0 < V -> D <> 0 -> ~ overflows -> Rabs (rho * g) <= FLOAT_UNDERFLOW ->
   value run = Raise ZeroDivisionError) /\
  (V <= 0 \/ D = 0 -> run = ret 1e10).
Proof.
  intros run overflows. subst run overflows.
  unfold FloatRange.energy_equation_for_V, raises.
  destruct (Rle_dec V 0) as [HV|HV].
  { split; [|split; [|split]].
    - split; [intros [e He]; discriminate|intros; lra].
    - intros; lra.
    - intros; lra.
    - intros _. reflexivity. }
  destruct (Req_dec_T D 0) as [HD|HD].
  { split; [|split; [|split]].
    - split; [intros [e He]; discriminate|intros (_ & H & _); contradiction].
    - intros _ (H & _). lra.
    - intros _ H. contradiction.
    - intros _. reflexivity. }
  assert (Hside : ~ (V <= 0 \/ D = 0)) by (intros [?|?]; [lra|contradiction]).
  match goal with
  | |- context [bind (colebrook_white_friction_factor root_scalar ?re ?ed) ?k] =>
      destruct (colebrook_returns root_scalar re ed) as (f & w & Hf & _);
      pose proof (value_bind (colebrook_white_friction_factor root_scalar re ed)
                    k f ltac:(rewrite Hf; reflexivity)) as Hval;
      cbv beta in Hval
  end.
  rewrite !Hval. clear Hval.
  destruct (total_head_loss_cases f L D V sum_K g)
    as [(HD0 & Hg0 & Hov & ->)|(Hno & hL & ->)].
  - rewrite bind_raise. simpl. split; [|split; [|split]].
    + split; [intros _|intros _; eexists; reflexivity].
      split; [lra|]. split; [assumption|]. left. auto.
    + reflexivity.
    + intros _ _ H. destruct H. auto.
    + intros H. contradiction.
  - rewrite bind_ret.
    destruct (pydiv_cases (P1 - P2) rho g) as [[Hz ->]|[Hnz ->]].
    + rewrite bind_raise. simpl. split; [|split; [|split]].
      * split; [intros _|intros _; eexists; reflexivity].
        split; [lra|]. split; [assumption|]. right. assumption.
      * intros _ H. contradiction.
      * reflexivity.
      * intros H. contradiction.
    + rewrite bind_ret. simpl. split; [|split; [|split]].
      * split; [intros [e He]; discriminate|].
        intros (_ & _ & [H|H]); [contradiction|lra].
      * intros _ H. contradiction.
      * intros; lra.
      * intros H. contradiction.
Qed.

(** *** The strategies of solve_velocity *)

Lemma accepted_iff (sol : RootResults) (v : R) :
  accepted sol = Some v <->
  converged sol = true /\ root sol = v /\ 0 < v.
Proof.
  unfold accepted. destruct (converged sol).
  - destruct (Rlt_dec 0 (root sol)) as [Hpos|Hneg].
    + split; [intros [= <-]; auto|intros (_ & <- & _); reflexivity].
    + split; [discriminate|]. intros (_ & <- & H). contradiction.
  - split; [discriminate|]. intros (H & _). discriminate.
Qed.

(** A stage made of one call of the root finder returns a root exactly
    when the call reported one. *)
Lemma stage_call (m : M RootResults) :
  returns (fun r _ => forall v, r = Some v <-> reported m v)
    (stage (bind m (fun sol => ret (accepted sol)))).
Proof.
  unfold stage, try_except, reported.
  destruct m as [[sol|e] w]; simpl.
  - exists (accepted sol), (w ++ []). split; [reflexivity|].
    intros v. rewrite accepted_iff. split.
    + intros H. exists sol, w. auto.
    + intros (sol' & w' & [= <- <-] & H). exact H.
  - exists None, (w ++ []). split; [reflexivity|].
    intros v. split; [discriminate|].
    intros (sol' & w' & He & _). discriminate.
Qed.

Lemma stage_bracket (F : R -> M R) (V_min V_max : R) :
  returns
    (fun r _ => forall v, r = Some v <->
                          bracket_yields root_scalar F V_min V_max v)
    (stage
       (f_low <- F V_min ;;
        f_high <- F V_max ;;
        if Req_dec_T (sign f_low) (sign f_high) then ret None
        else
          sol <- root_scalar F (brentq V_min V_max) 200 ;;
          ret (accepted sol))).
Proof.
  unfold bracket_yields.
  destruct (F V_min) as [[f_low|e] w] eqn:Hlow.
  2:{ exists None, (w ++ []). split; [reflexivity|].
      intros v. split; [discriminate|].
      intros [(fl & fh & w1 & w2 & H & _) _]. discriminate. }
  destruct (F V_max) as [[f_high|e] w'] eqn:Hhigh.
  2:{ exists None, ((w ++ w') ++ []). split; [reflexivity|].
      intros v. split; [discriminate|].
      intros [(fl & fh & w1 & w2 & _ & H & _) _]. discriminate. }
  destruct (Req_dec_T (sign f_low) (sign f_high)) as [Heq|Hne] eqn:Hsign.
  - exists None, (w ++ w' ++ []). split.
    + unfold stage, try_except, bind. rewrite Hsign. reflexivity.
    + intros v. split; [discriminate|].
      intros [(fl & fh & w1 & w2 & [= <- _] & [= <- _] & H) _].
      contradiction.
  - destruct (stage_call (root_scalar F (brentq V_min V_max) 200))
      as (r & w'' & Hst & Hr).
    unfold stage, try_except, bind in Hst |- *. rewrite Hsign.
    destruct (root_scalar F (brentq V_min V_max) 200) as [[sol|e] w3];
      simpl in Hst |- *; injection Hst as <- <-.
    + eexists _, _. split; [reflexivity|].
      intros v. rewrite Hr. split; [|tauto].
      intros H. split; [|exact H].
      exists f_low, f_high, w, w'. auto.
    + eexists _, _. split; [reflexivity|].
      intros v. rewrite Hr. split; [|tauto].
      intros H. split; [|exact H].
      exists f_low, f_high, w, w'. auto.
Qed.

Lemma velocity_estimate_returns (P1 P2 z1 z2 rho g V_min V_max : R) :
  exists V_est, velocity_estimate P1 P2 z1 z2 rho g V_min V_max = ret V_est.
Proof.
  unfold velocity_estimate.
  destruct (pydiv_cases (P1 - P2) rho g) as [[_ ->]|[_ ->]].
  - eexists. reflexivity.
  - rewrite bind_ret.
    destruct (Rlt_dec 0 _); eexists; reflexivity.
Qed.

(** C6, as the claim has it, fails: the square of the diameter is taken
    before any [try], and for [D = 1e200] it is out of the range of floats. *)
Lemma solve_velocity_raises_overflow :
  value (FloatRange.solve_velocity no_convergence 101325 0 0 0 100 1e200 998
           1e-6 0 9.81 (Some 4.5e-5) 0.001 20)
  = Raise OverflowError.
Proof.
  unfold FloatRange.solve_velocity, float_square, FLOAT_OVERFLOW.
  destruct (Rle_dec (2 ^ 1024 - 2 ^ 970) (1e200 ^ 2)) as [_|H];
    [reflexivity|].
  exfalso. apply H. lra.
Qed.

(** C6, amended.  [solve_velocity] raises in one case only: the
    [OverflowError] of [D ** 2], when that square is out of the range of
    floats.  For every other input, and whatever the root finder does, it
    returns either [(V, Q)] with [V > 0] and [Q = V * (pi * D^2 / 4)], where
    [V] is the converged positive root of the first strategy that produced
    one (bracket search, then secant search, then Newton search), or, when
    none of the three produced one and only then, [(None, None)] after the
    closing warning. *)
Theorem solve_velocity_outcome
  (P1 P2 z1 z2 L D rho nu sum_K g : R) (material_epsilon : option R)
  (V_min V_max : R) :
  let F := fun V =>
    FloatRange.energy_equation_for_V root_scalar V P1 P2 z1 z2 L D rho nu
      sum_K g material_epsilon in
  let run := FloatRange.solve_velocity root_scalar P1 P2 z1 z2 L D rho nu
               sum_K g material_epsilon V_min V_max in
  (FLOAT_OVERFLOW <= D ^ 2 -> run = raise OverflowError) /\
  (D ^ 2 < FLOAT_OVERFLOW ->
   exists D2 V_est,
     float_square D = ret D2 /\
     (FLOAT_UNDERFLOW < D ^ 2 -> D2 = D ^ 2) /\
     velocity_estimate P1 P2 z1 z2 rho g V_min V_max = ret V_est /\
     returns
       (fun r w =>
          (exists V,
             r = (Some V, Some (V * (PI * D2 / 4))) /\ 0 < V /\
             first_yield root_scalar F V_min V_max V_est V) \/
          (r = (None, None) /\
           no_yield root_scalar F V_min V_max V_est /\
           exists w0,
             w = w0 ++ ["No se pudo resolver la velocidad con las estrategias disponibles."%string]))
       run).
Proof.
  intros F run. subst run. unfold FloatRange.solve_velocity. fold F.
  destruct (float_square_cases D) as [[Hov HD2]|[Hin (D2 & HD2 & _ & Hval & _)]].
  { split; [intros _; rewrite HD2; reflexivity|intros; lra]. }
  split; [intros; lra|]. intros _.
  destruct (velocity_estimate_returns P1 P2 z1 z2 rho g V_min V_max)
    as (V_est & Hest).
  exists D2, V_est. split; [exact HD2|]. split; [exact Hval|].
  split; [exact Hest|].
  rewrite HD2, bind_ret, Hest.
  unfold first_yield, no_yield.
  eapply returns_bind; [exact (stage_bracket F V_min V_max)|].
  intros [V|] w1 H1.
  { apply returns_ret. left. exists V. split; [reflexivity|].
    assert (Hy : bracket_yields root_scalar F V_min V_max V)
      by (apply H1; reflexivity).
    split; [eapply reported_positive, Hy|]. left. exact Hy. }
  assert (N1 : ~ (exists v, bracket_yields root_scalar F V_min V_max v)).
  { intros [v Hv]. apply H1 in Hv. discriminate. }
  rewrite bind_ret.
  eapply returns_bind;
    [exact (stage_call
              (root_scalar F
                 (secant (Rmax V_min (V_est * 0.5))
                         (Rmin V_max (V_est * 1.5))) 200))|].
  intros [V|] w2 H2.
  { apply returns_ret. left. exists V. split; [reflexivity|].
    assert (Hy : secant_yields root_scalar F V_min V_max V_est V)
      by (apply H2; reflexivity).
    split; [eapply reported_positive, Hy|]. right; left. auto. }
  assert (N2 : ~ (exists v, secant_yields root_scalar F V_min V_max V_est v)).
  { intros [v Hv]. apply H2 in Hv. discriminate. }
  eapply returns_bind;
    [exact (stage_call (root_scalar F (newton ((V_min + V_max) / 2)) 200))|].
  intros [V|] w3 H3.
  { apply returns_ret. left. exists V. split; [reflexivity|].
    assert (Hy : newton_yields root_scalar F V_min V_max V)
      by (apply H3; reflexivity).
    split; [eapply reported_positive, Hy|]. right; right. auto. }
  assert (N3 : ~ (exists v, newton_yields root_scalar F V_min V_max v)).
  { intros [v Hv]. apply H3 in Hv. discriminate. }
  eapply returns_bind; [apply returns_warn|].
  intros [] w4 ->. apply returns_ret. right. split; [reflexivity|].
  split; [auto|].
  exists (w1 ++ w2 ++ w3). rewrite app_nil_r, <- !app_assoc. reflexivity.
Qed.

End RaiseFacts.

Lemma energy_equation_for_V_raise_set_witness :
  value (FloatRange.energy_equation_for_V no_convergence 1e200 101325 0 0 0
           100 0.1 998 1e-6 0 9.81 (Some 4.5e-5))
  = Raise OverflowError /\
  value (FloatRange.energy_equation_for_V no_convergence 2 101325 0 0 0 100
           0.1 0 1e-6 0 9.81 (Some 4.5e-5))
  = Raise ZeroDivisionError.
Proof.
  pose proof FLOAT_OVERFLOW_lt as Hmax. pose proof FLOAT_OVERFLOW_gt_1 as Hbig.
  pose proof FLOAT_UNDERFLOW_pos as Hmin.
  split.
  - apply (energy_equation_for_V_raise_set no_convergence 1e200 101325 0 0 0
             100 0.1 998 1e-6 0 9.81 (Some 4.5e-5)); [lra|].
    repeat split; lra.
  - apply (energy_equation_for_V_raise_set no_convergence 2 101325 0 0 0
             100 0.1 0 1e-6 0 9.81 (Some 4.5e-5)); [lra|lra| |].
    + intros (_ & _ & Hov). lra.
    + replace (0 * 9.81) with 0 by ring. rewrite Rabs_R0. lra.
Defined.

Lemma solve_velocity_outcome_witness :
  exists D2 V_est,
    float_square 0.1 = ret D2 /\
    (FLOAT_UNDERFLOW < 0.1 ^ 2 -> D2 = 0.1 ^ 2) /\
    velocity_estimate 101325 0 0 0 998 9.81 0.001 20 = ret V_est /\
    returns
      (fun r w =>
         (exists V,
            r = (Some V, Some (V * (PI * D2 / 4))) /\ 0 < V /\
            first_yield no_convergence
              (fun V => FloatRange.energy_equation_for_V no_convergence V
                          101325 0 0 0 100 0.1 998 1e-6 0 9.81
                          (Some 4.5e-5))
              0.001 20 V_est V) \/
         (r = (None, None) /\
          no_yield no_convergence
            (fun V => FloatRange.energy_equation_for_V no_convergence V
                        101325 0 0 0 100 0.1 998 1e-6 0 9.81 (Some 4.5e-5))
            0.001 20 V_est /\
          exists w0,
            w = w0 ++ ["No se pudo resolver la velocidad con las estrategias disponibles."%string]))
      (FloatRange.solve_velocity no_convergence 101325 0 0 0 100 0.1 998 1e-6
         0 9.81 (Some 4.5e-5) 0.001 20).
Proof.
  apply (proj2 (solve_velocity_outcome no_convergence 101325 0 0 0 100 0.1 998
                  1e-6 0 9.81 (Some 4.5e-5) 0.001 20)).
  pose proof FLOAT_OVERFLOW_gt_1. lra.
Defined.

End FloatRangeSpec.

(** ** The form and the view *)

Module ViewsSpec.
Import Py FluidMechanics FluidMechanicsSpec FluidMechanicsMore Forms Views.
Import FloatRange FloatRangeSpec.
Local Open Scope R_scope.
Local Open Scope py_scope.

Lemma map_fst_pairs {A B} (h : A -> B) (l : list A) :
  map fst (map (fun x => (x, h x)) l) = l.
Proof. induction l as [|x l IH]; simpl; [|rewrite IH]; reflexivity. Qed.

(** *** FluidInputForm.clean *)

(** X27.  [clean] adds no error exactly when the input the user chose is
    there and positive: a velocity for ['V'], a flow rate for ['Q']; for
    any other choice it adds none.  It never adds more than one. *)
Theorem clean_spec (input_type : option string) (velocity caudal : option R) :
  (clean input_type velocity caudal = [] <->
   (input_type = Some "V"%string -> exists v, velocity = Some v /\ 0 < v) /\
   (input_type = Some "Q"%string -> exists q, caudal = Some q /\ 0 < q)) /\
  (List.length (clean input_type velocity caudal) <= 1)%nat.
Proof.
  unfold clean.
  destruct input_type as [t|].
  2:{ simpl. split; [|lia]. split; [|reflexivity].
      intros _. split; discriminate. }
  destruct (String.eqb t "V") eqn:EV.
  - apply String.eqb_eq in EV. subst t. simpl.
    destruct velocity as [v|].
    + destruct (Rle_dec v 0) as [Hle|Hgt]; simpl; (split; [|lia]).
      * split; [discriminate|]. intros [H _].
        destruct (H eq_refl) as (v' & [= <-] & Hv). lra.
      * split; [|reflexivity]. intros _. split; [|discriminate].
        intros _. exists v. split; [reflexivity|lra].
    + simpl. split; [|lia]. split; [discriminate|]. intros [H _].
      destruct (H eq_refl) as (v' & Hv & _). discriminate.
  - simpl. destruct (String.eqb t "Q") eqn:EQ.
    + apply String.eqb_eq in EQ. subst t. simpl.
      destruct caudal as [q|].
      * destruct (Rle_dec q 0) as [Hle|Hgt]; simpl; (split; [|lia]).
        -- split; [discriminate|]. intros [_ H].
           destruct (H eq_refl) as (q' & [= <-] & Hq). lra.
        -- split; [|reflexivity]. intros _. split; [discriminate|].
           intros _. exists q. split; [reflexivity|lra].
      * simpl. split; [|lia]. split; [discriminate|]. intros [_ H].
        destruct (H eq_refl) as (q' & Hq & _). discriminate.
    + simpl. split; [|lia]. split; [|reflexivity]. intros _.
      apply String.eqb_neq in EV, EQ.
      split; intros [= ->]; contradiction.
Qed.

Lemma clean_spec_witness :
  clean (Some "V"%string) (Some 2) None = [].
Proof.
  apply (proj1 (clean_spec (Some "V"%string) (Some 2) None)).
  split; [|discriminate]. intros _. exists 2. split; [reflexivity|lra].
Defined.

(** *** The input pair of the view *)

Lemma area_of_square_positive (D : R) :
  FLOAT_UNDERFLOW < D ^ 2 -> 0 < PI * D ^ 2 / 4.
Proof.
  intros H. pose proof PI_RGT_0. pose proof FLOAT_UNDERFLOW_pos.
  apply Rdiv_lt_0_compat; [apply Rmult_lt_0_compat; lra|lra].
Qed.

(** X24.  With the range of floats, the view's area step raises in two
    cases only: [OverflowError] when [D ** 2] is out of range, and the
    diameter [ValueError] when [D ** 2] is zero as a float ([D = 0]
    included).  For every other [D] the pair [(V, Q)] satisfies
    [Q = V * A] with [A = pi D^2 / 4], whichever of the two was entered:
    [V] is the velocity entered (or [0]) for the input type ['V'], and [Q]
    is the flow rate entered (or [0]) for any other input type. *)
Theorem input_flow_spec (input_type : string) (velocity caudal : option R)
  (D : R) :
  let run := input_flow input_type velocity caudal D in
  (raises run <-> FLOAT_OVERFLOW <= D ^ 2 \/ D ^ 2 <= FLOAT_UNDERFLOW) /\
  (FLOAT_OVERFLOW <= D ^ 2 -> run = raise OverflowError) /\
  (D ^ 2 <= FLOAT_UNDERFLOW ->
   run = raise (ValueError "El diámetro interno es cero o negativo.")) /\
  (FLOAT_UNDERFLOW < D ^ 2 -> D ^ 2 < FLOAT_OVERFLOW ->
   exists V Q,
     run = ret (V, Q) /\
     Q = V * (PI * D ^ 2 / 4) /\
     (input_type = "V"%string -> V = or_zero velocity) /\
     (input_type <> "V"%string -> Q = or_zero caudal)).
Proof.
  intros run. subst run. unfold input_flow, raises.
  pose proof FLOAT_UNDERFLOW_pos as Hmin.
  assert (Hgap : FLOAT_UNDERFLOW < FLOAT_OVERFLOW)
    by (pose proof FLOAT_UNDERFLOW_lt_1; pose proof FLOAT_OVERFLOW_gt_1; lra).
  destruct (float_square_cases D)
    as [[Hov ->]|[Hin (D2 & -> & _ & Hbig & Hsmall)]].
  { rewrite bind_raise. split; [|split; [|split]].
    - split; [intros _; left; exact Hov|intros _; eexists; reflexivity].
    - intros _. reflexivity.
    - intros H. lra.
    - intros; lra. }
  rewrite bind_ret.
  destruct (Rle_dec (D ^ 2) FLOAT_UNDERFLOW) as [Hun|Hun].
  - rewrite (Hsmall Hun).
    replace (PI * 0 / 4) with 0 by (unfold Rdiv; ring).
    destruct (Rle_dec 0 0); [|lra].
    split; [|split; [|split]].
    + split; [intros _; right; exact Hun|intros _; eexists; reflexivity].
    + intros H. lra.
    + intros _. reflexivity.
    + intros; lra.
  - assert (HU : FLOAT_UNDERFLOW < D ^ 2) by lra.
    rewrite (Hbig HU). pose proof (area_of_square_positive D HU) as HA.
    set (A := PI * D ^ 2 / 4) in *.
    destruct (Rle_dec A 0); [lra|].
    split; [|split; [|split]].
    + split; [|intros [?|?]; lra].
      intros [e He]. destruct (String.eqb input_type "V"); discriminate.
    + intros; lra.
    + intros; lra.
    + intros _ _. destruct (String.eqb input_type "V") eqn:E.
      * apply String.eqb_eq in E.
        eexists _, _. split; [reflexivity|]. split; [reflexivity|].
        split; [reflexivity|]. intros; contradiction.
      * apply String.eqb_neq in E.
        destruct (Rlt_dec 0 A); [|lra].
        eexists _, _. split; [reflexivity|].
        split; [field; lra|]. split; [intros; contradiction|reflexivity].
Qed.

Lemma input_flow_spec_witness :
  input_flow "V" (Some 2) None 1e200 = raise OverflowError /\
  input_flow "V" (Some 2) None 0
  = raise (ValueError "El diámetro interno es cero o negativo.") /\
  exists V Q,
    input_flow "Q" None (Some 0.01) 0.1 = ret (V, Q) /\
    Q = V * (PI * 0.1 ^ 2 / 4) /\
    ("Q"%string = "V"%string -> V = or_zero None) /\
    ("Q"%string <> "V"%string -> Q = or_zero (Some 0.01)).
Proof.
  pose proof FLOAT_OVERFLOW_lt as Hmax. pose proof FLOAT_OVERFLOW_gt_1 as Hbig.
  pose proof FLOAT_UNDERFLOW_pos as Hmin.
  pose proof FLOAT_UNDERFLOW_lt_1 as Hsmall.
  split; [|split].
  - apply (input_flow_spec "V" (Some 2) None 1e200). lra.
  - apply (input_flow_spec "V" (Some 2) None 0). lra.
  - apply (input_flow_spec "Q" None (Some 0.01) 0.1); lra.
Defined.

(** X28.  When [clean] accepts the form, with one of its two input types
    and a diameter whose square is within the range of floats, the view
    computes with the quantity that was entered, which is strictly
    positive, and derives the other one from it by [Q = V * A]: the
    default [0.0] of [x or 0.0] is never taken. *)
Theorem clean_input_flow_entered (input_type : string)
  (velocity caudal : option R) (D : R) :
  clean (Some input_type) velocity caudal = [] ->
  input_type = "V"%string \/ input_type = "Q"%string ->
  FLOAT_UNDERFLOW < D ^ 2 -> D ^ 2 < FLOAT_OVERFLOW ->
  exists V Q,
    input_flow input_type velocity caudal D = ret (V, Q) /\
    Q = V * (PI * D ^ 2 / 4) /\
    ((input_type = "V"%string /\ velocity = Some V /\ 0 < V) \/
     (input_type = "Q"%string /\ caudal = Some Q /\ 0 < Q)).
Proof.
  intros Hclean Htype HU HT.
  pose proof (area_of_square_positive D HU) as HA.
  unfold input_flow.
  destruct (float_square_cases D)
    as [[Hov _]|[_ (D2 & -> & _ & Hbig & _)]]; [lra|].
  rewrite bind_ret, (Hbig HU).
  set (A := PI * D ^ 2 / 4) in *.
  destruct (Rle_dec A 0); [lra|].
  unfold clean in Hclean.
  destruct Htype as [-> | ->]; simpl in Hclean.
  - change (String.eqb "V" "V") with true. cbv iota.
    destruct velocity as [v|]; [|discriminate].
    destruct (Rle_dec v 0); [discriminate|].
    exists v, (v * A). split; [reflexivity|]. split; [reflexivity|].
    left. repeat split. lra.
  - change (String.eqb "Q" "V") with false. cbv iota.
    destruct caudal as [q|]; [|discriminate].
    destruct (Rle_dec q 0); [discriminate|].
    destruct (Rlt_dec 0 A); [|lra].
    exists (q / A), q. split; [reflexivity|]. split; [field; lra|].
    right. repeat split. lra.
Qed.

Lemma clean_input_flow_entered_witness :
  exists V Q,
    input_flow "Q" None (Some 0.01) 0.1 = ret (V, Q) /\
    Q = V * (PI * 0.1 ^ 2 / 4) /\
    (("Q"%string = "V"%string /\ None = Some V /\ 0 < V) \/
     ("Q"%string = "Q"%string /\ Some 0.01 = Some Q /\ 0 < Q)).
Proof.
  pose proof FLOAT_OVERFLOW_gt_1 as Hbig.
  pose proof FLOAT_UNDERFLOW_lt_1 as Hsmall.
  apply (clean_input_flow_entered "Q" None (Some 0.01) 0.1).
  - unfold clean. simpl. destruct (Rle_dec 0.01 0); [lra|reflexivity].
  - right. reflexivity.
  - lra.
  - lra.
Defined.

Section ViewFacts.
Variable root_scalar : (R -> M R) -> method -> nat -> M RootResults.

(** *** The forward computation *)

(** X25.  With [D > 0] and [g > 0] the forward computation stops with
    [OverflowError] when the square of [V] is out of the range of floats.
    Otherwise a degenerate flow state does not stop it: for a positive
    efficiency, a velocity [<= 0] or a viscosity [<= 0] gives [Re = 0] and
    [f = 0], so that the friction term drops out of the head loss, which is
    [sum_K * V^2 / (2 g)]; the pressure drop is [rho g hL], and the one
    warning emitted is the one about the Reynolds number. *)
Theorem forward_degenerate (V Q D nu epsilon L sum_K g rho : R)
  (system : string) (pump_efficiency : R) :
  0 < D -> 0 < g ->
  (FLOAT_OVERFLOW <= V ^ 2 ->
   value (forward root_scalar V Q D nu epsilon L sum_K g rho system
            pump_efficiency) = Raise OverflowError) /\
  (V ^ 2 < FLOAT_OVERFLOW -> V = 0 \/ FLOAT_UNDERFLOW < V ^ 2 ->
   0 < pump_efficiency -> V <= 0 \/ nu <= 0 ->
   returns
     (fun r w =>
        res_Re r = 0 /\ res_f r = 0 /\
        res_hL r = sum_K * (V ^ 2 / (2 * g)) /\
        res_delta_P r = rho * g * res_hL r /\
        w = ["Re <= 0 en colebrook_white_friction_factor; devolviendo 0.0"%string])
     (forward root_scalar V Q D nu epsilon L sum_K g rho system
        pump_efficiency)).
Proof.
  intros HD Hg. unfold forward, pydiv.
  destruct (Req_dec_T D 0); [lra|]. rewrite bind_ret. split.
  - intros Hov.
    match goal with
    | |- context [bind (colebrook_white_friction_factor root_scalar ?re ?ed) ?k] =>
        destruct (colebrook_returns root_scalar re ed) as (f & w & Hf & _);
        rewrite (value_bind (colebrook_white_friction_factor root_scalar re ed)
                   k f ltac:(rewrite Hf; reflexivity))
    end.
    destruct (total_head_loss_cases f L D V sum_K g)
      as [(_ & _ & _ & ->)|(Hno & _)]; [reflexivity|].
    exfalso. apply Hno. auto.
  - intros Hin Hsq Heff Hdeg.
    assert (HRe : reynolds_number V D nu = 0).
    { unfold reynolds_number.
      destruct (Rle_dec V 0); [reflexivity|].
      destruct (Rle_dec D 0); [reflexivity|].
      destruct (Rle_dec nu 0); [reflexivity|]. lra. }
    rewrite HRe. unfold colebrook_white_friction_factor.
    destruct (Rle_dec 0 0); [|lra].
    assert (HhL : FloatRange.total_head_loss 0 L D V sum_K g
                  = ret (sum_K * (V ^ 2 / (2 * g)))).
    { unfold FloatRange.total_head_loss, float_square.
      pose proof FLOAT_UNDERFLOW_pos.
      destruct (Rle_dec D 0); [lra|]. destruct (Rle_dec g 0); [lra|].
      destruct (Rle_dec FLOAT_OVERFLOW (V ^ 2)); [lra|].
      destruct (Rle_dec (V ^ 2) FLOAT_UNDERFLOW) as [Hun|Hun].
      - destruct Hsq as [-> |Hsq]; [|lra].
        rewrite bind_ret. f_equal. field. lra.
      - rewrite bind_ret. f_equal. ring. }
    unfold pumping_power. destruct (Rle_dec pump_efficiency 0); [lra|].
    eapply returns_bind
      with (Q := fun f w =>
                   f = 0 /\
                   w = ["Re <= 0 en colebrook_white_friction_factor; devolviendo 0.0"%string]).
    { eexists _, _. split; [reflexivity|]. split; reflexivity. }
    intros f w [-> ->]. rewrite HhL, bind_ret.
    destruct (is_SI system); rewrite bind_ret; apply returns_ret;
      simpl; auto.
Qed.

(** *** The chart *)

(** X26.  The chart of the view always has its 20 points: for either unit
    system the sampling raises nothing and returns exactly 20 pairs, over
    [[0.5, 5]] for ['SI'] and over [[1, 15]] otherwise. *)
Theorem chart_raw_data_20 (system : string) (L D nu sum_K g epsilon : R) :
  exists data,
    value (chart_raw_data root_scalar system L D nu sum_K g epsilon)
    = Ok data /\
    List.length data = 20%nat /\
    map fst data
    = if String.eqb system "SI" then linspace 0.5 5 20 else linspace 1 15 20.
Proof.
  unfold chart_raw_data, chart_range.
  destruct (String.eqb system "SI").
  - eexists. split; [apply generate_value; lia|].
    rewrite linspace_all_positive by lra.
    rewrite length_map, linspace_length, map_fst_pairs. split; reflexivity.
  - eexists. split; [apply generate_value; lia|].
    rewrite linspace_all_positive by lra.
    rewrite length_map, linspace_length, map_fst_pairs. split; reflexivity.
Qed.

End ViewFacts.

Lemma forward_degenerate_witness :
  value (forward no_convergence 1e200 0.0157 0.1 1e-6 4.5e-5 100 1.5 9.81 998
           "SI" 0.75) = Raise OverflowError /\
  returns
    (fun r w =>
       res_Re r = 0 /\ res_f r = 0 /\
       res_hL r = 1.5 * (2 ^ 2 / (2 * 9.81)) /\
       res_delta_P r = 998 * 9.81 * res_hL r /\
       w = ["Re <= 0 en colebrook_white_friction_factor; devolviendo 0.0"%string])
    (forward no_convergence 2 0.0157 0.1 0 4.5e-5 100 1.5 9.81 998 "SI" 0.75).
Proof.
  pose proof FLOAT_OVERFLOW_lt as Hmax. pose proof FLOAT_OVERFLOW_gt_1 as Hbig.
  pose proof FLOAT_UNDERFLOW_lt_1 as Hsmall.
  split.
  - apply (forward_degenerate no_convergence 1e200 0.0157 0.1 1e-6 4.5e-5 100
             1.5 9.81 998 "SI" 0.75); lra.
  - apply (forward_degenerate no_convergence 2 0.0157 0.1 0 4.5e-5 100 1.5
             9.81 998 "SI" 0.75); lra.
Defined.

End ViewsSpec.
